(** * Shared-library introspection and patching (nuitka/utils/SharedLibraries.py)

  A shallow embedding of the module's functions, followed by the
  properties of the specification that are established for them.

  Conventions of the embedding:
  - a Python [bytes] value is a [list byte];
  - a Python text value ([str] on Python 3, [unicode] on Python 2) is a
    list of code points, [list N]; a Python 2 native [str] is a byte
    string and is carried in the same type, every byte as its code;
  - a function that may raise returns a [Result];
  - a function that touches the machine (files, external tools, resource
    APIs, loggers) threads a [World] through the monad [M]. *)

From Stdlib Require Import ZArith List Strings.String Strings.Ascii Strings.Byte.
From stdpp Require Import base decidable option list countable gmap.

Local Open Scope Z_scope.

(** ** Python sequences *)

Definition bytes := list byte.
Definition text := list N.

#[global] Instance byte_eq_decision : EqDecision byte := Byte.byte_eq_dec.

(** [b "..."] is the literal [b"..."]; [t "..."] the text literal. *)
Definition b (s : string) : bytes := list_byte_of_string s.
Definition t (s : string) : text :=
  map (fun c => N_of_ascii c) (list_ascii_of_string s).

(** A Python 2 [str] is already bytes: the embedding only changes carrier. *)
Definition as_native (s : bytes) : text := map Byte.to_N s.

Module Py.
Section Seq.
Context {A : Type} `{EqDecision A}.

(** [s.startswith(p)] *)
Fixpoint startswith (s p : list A) : bool :=
  match p, s with
  | [], _ => true
  | _ :: _, [] => false
  | x :: p', y :: s' => bool_decide (x = y) && startswith s' p'
  end.

(** [sub in s] *)
Fixpoint contains (s sub : list A) : bool :=
  startswith s sub ||
  match s with
  | [] => false
  | _ :: s' => contains s' sub
  end.

(** [s.find(sub)]: lowest index of an occurrence, [-1] if there is none. *)
Fixpoint find_at (s sub : list A) (i : Z) : Z :=
  if startswith s sub then i
  else match s with
       | [] => -1
       | _ :: s' => find_at s' sub (i + 1)
       end.
Definition find (s sub : list A) : Z := find_at s sub 0.

(** [s.rfind(sub)]: highest index of an occurrence, [-1] if there is none. *)
Fixpoint rfind_at (s sub : list A) (i last : Z) : Z :=
  let last' := if startswith s sub then i else last in
  match s with
  | [] => last'
  | _ :: s' => rfind_at s' sub (i + 1) last'
  end.
Definition rfind (s sub : list A) : Z := rfind_at s sub 0 (-1).

(** [s.count(sub)]: number of non-overlapping occurrences, scanning from
    the left; [skip] is the number of elements still covered by the
    occurrence just counted. *)
Fixpoint count_at (s sub : list A) (skip : nat) : nat :=
  match s with
  | [] => match skip with
          | O => if startswith s sub then 1%nat else 0%nat
          | S _ => 0%nat
          end
  | _ :: s' =>
      match skip with
      | S k => count_at s' sub k
      | O => if startswith s sub
             then S (count_at s' sub (length sub - 1))
             else count_at s' sub 0
      end
  end.
Definition count (s sub : list A) : nat := count_at s sub 0.

(** [s.split(sep)] for a non-empty [sep] (Python raises [ValueError] on
    an empty separator; every call site passes a literal). *)
Fixpoint split_at (s sep : list A) (skip : nat) : list (list A) :=
  match s with
  | [] => [[]]
  | c :: s' =>
      match skip with
      | S k => split_at s' sep k
      | O => if startswith s sep
             then [] :: split_at s' sep (length sep - 1)
             else match split_at s' sep 0 with
                  | p :: ps => (c :: p) :: ps
                  | [] => [[c]]
                  end
      end
  end.
Definition split (s sep : list A) : list (list A) := split_at s sep 0.

(** [sep.join(parts)] *)
Fixpoint join (sep : list A) (parts : list (list A)) : list A :=
  match parts with
  | [] => []
  | [p] => p
  | p :: ps => p ++ sep ++ join sep ps
  end.

(** Index normalisation of a slice bound, as [PySlice_AdjustIndices]. *)
Definition clamp (len i : Z) : Z :=
  if i <? 0 then Z.max (i + len) 0 else Z.min i len.

(** [s[lo:hi]] *)
Definition slice (s : list A) (lo hi : Z) : list A :=
  let n := Z.of_nat (length s) in
  let lo' := clamp n lo in
  let hi' := clamp n hi in
  take (Z.to_nat (hi' - lo')) (drop (Z.to_nat lo') s).

(** [s[1:]] and [s[lo:]] *)
Definition slice_from (s : list A) (lo : Z) : list A :=
  slice s lo (Z.of_nat (length s)).
End Seq.

(** Byte-string methods that depend on ASCII classes. *)

Definition LF : byte := "010"%byte.
Definition CR : byte := "013"%byte.

(** ASCII whitespace of [bytes.strip] and [bytes.split]: space, tab,
    newline, carriage return, vertical tab, form feed. *)
Definition isspace (c : byte) : bool :=
  bool_decide (c = " "%byte) || bool_decide (c = "009"%byte)
  || bool_decide (c = LF) || bool_decide (c = CR)
  || bool_decide (c = "011"%byte) || bool_decide (c = "012"%byte).

Fixpoint lstrip (s : bytes) : bytes :=
  match s with
  | c :: s' => if isspace c then lstrip s' else s
  | [] => []
  end.
Definition rstrip (s : bytes) : bytes := reverse (lstrip (reverse s)).
(** [s.strip()] *)
Definition strip (s : bytes) : bytes := rstrip (lstrip s).

(** [s.split()]: the maximal runs of non-whitespace bytes. *)
Fixpoint split_ws (s : bytes) : list bytes :=
  match s with
  | [] => []
  | c :: s' =>
      if isspace c then split_ws s'
      else match s' with
           | [] => [[c]]
           | d :: _ =>
               if isspace d then [c] :: split_ws s'
               else match split_ws s' with
                    | p :: ps => (c :: p) :: ps
                    | [] => [[c]]
                    end
           end
  end.

(** [s.splitlines()] on bytes: lines end at "\n", "\r" or "\r\n"; the
    terminators are dropped and a final terminator opens no new line. *)
Fixpoint splitlines_at (s : bytes) (after_cr : bool) : list bytes :=
  match s with
  | [] => []
  | c :: s' =>
      if bool_decide (c = LF) then
        if after_cr then splitlines_at s' false
        else [] :: splitlines_at s' false
      else if bool_decide (c = CR) then [] :: splitlines_at s' true
      else match splitlines_at s' false with
           | p :: ps => (c :: p) :: ps
           | [] => [[c]]
           end
  end.
Definition splitlines (s : bytes) : list bytes := splitlines_at s false.

End Py.


(** ** Exceptions, results and the world *)

(** The exceptions that leave the functions of the module. *)
Inductive Exception :=
| AssertionError (detail : bytes)       (* [assert cond, detail] *)
| ValueError                            (* tuple unpacking of the wrong size *)
| KeyError (key : text)                 (* [d[key]] on a missing key *)
| IndexError                            (* [l[i]] out of range *)
| UnicodeDecodeError                    (* strict [bytes.decode] *)
| NuitkaAssumptionError (message filename : text) (pe_type : Z)
| ToolMissing (absence_message : text)  (* fatal exit: tool not installed *)
| ToolFailed (command : list text)      (* fatal exit: tool ran and failed *)
| CollaboratorError.                    (* raised inside an injected capability *)

Inductive Result (A : Type) :=
| Ok (a : A)
| Raise (e : Exception).
Arguments Ok {A} a.
Arguments Raise {A} e.

#[global] Instance Result_ret : MRet Result := @Ok.
#[global] Instance Result_bind : MBind Result := fun A B f r =>
  match r with
  | Ok a => f a
  | Raise e => Raise e
  end.

(** Loop over a list with a body that may raise: the first exception ends
    the loop. *)
Fixpoint for_each {A S : Type} (body : S -> A -> Result S) (l : list A) (s : S)
  : Result S :=
  match l with
  | [] => Ok s
  | a :: l' =>
      match body s a with
      | Ok s' => for_each body l' s'
      | Raise e => Raise e
      end
  end.

Fixpoint map_result {A B : Type} (f : A -> Result B) (l : list A) : Result (list B) :=
  match l with
  | [] => Ok []
  | a :: l' =>
      match f a with
      | Ok x => match map_result f l' with
                | Ok xs => Ok (x :: xs)
                | Raise e => Raise e
                end
      | Raise e => Raise e
      end
  end.

(** A file on disk: its content and its permission bits. *)
Record File := { data : bytes; mode : Z }.

Inductive Logger := inclusion_logger | postprocessing_logger.

(** What the module does to the machine, in order. *)
Inductive Event :=
| ToolRun (command : list text)
| LogInfo (logger : Logger) (message : text)
| LogWarning (logger : Logger) (message : text)
| ResourcesRead (filename : text) (kinds : list Z)
| ResourcesDeleted (filename : text) (kind : Z) (names : list Z).

Record World := {
  files : gmap text File;
  journal : list Event;
}.

Definition M (A : Type) : Type := World -> Result A * World.

Definition ret {A} (a : A) : M A := fun w => (Ok a, w).
Definition raise {A} (e : Exception) : M A := fun w => (Raise e, w).
Definition bind {A B} (m : M A) (k : A -> M B) : M B := fun w =>
  match m w with
  | (Ok a, w') => k a w'
  | (Raise e, w') => (Raise e, w')
  end.
Definition lift {A} (r : Result A) : M A := fun w => (r, w).
Definition emit (e : Event) : M unit := fun w =>
  (Ok tt, {| files := files w; journal := journal w ++ [e] |}).

#[global] Instance M_ret : MRet M := @ret.
#[global] Instance M_bind : MBind M := fun A B k m => bind m k.

(** ** The host: interpreter, platform and injected capabilities *)

(** What a finished subprocess hands back. *)
Record Completed := { exit_code : Z; stdout : bytes; stderr : bytes }.

(** The object [pefile.PE(filename)] builds, as far as the module reads it. *)
Record ImportedModule := { dll : bytes }.
Record PE := {
  PE_TYPE : Z;
  DIRECTORY_ENTRY_IMPORT : option (list ImportedModule);
}.

(** [VsFixedFileInfoStructure] (declared in WindowsResources.py), the
    three DWORD fields the module reads. *)
Record VsFixedFileInfoStructure := {
  dwSignature : Z;
  dwFileVersionMS : Z;
  dwFileVersionLS : Z;
}.

Record Host := {
  (* the interpreter *)
  python_version : Z;
  getfilesystemencoding : text;
  codec_decode : text -> bytes -> option text;
  (* nuitka.utils.Utils, nuitka.Options *)
  getOS : text;
  isWin32Windows : bool;
  isAlpineLinux : bool;
  getArchitecture : text;
  isShowInclusion : bool;
  (* ctypes.util *)
  find_library : text -> option text;
  _get_soname : text -> option text;
  (* os.path and os.walk *)
  os_path_sep : text;
  os_path_normpath : text -> text;
  os_path_normcase : text -> text;
  os_path_basename : text -> text;
  os_path_dirname : text -> text;
  os_path_join : text -> text -> text;
  os_walk : text -> list (text * list text * list text);
  (* subprocess: [None] when the executable is not on the machine *)
  spawn : list text -> gmap text File -> option (Completed * gmap text File);
  (* pefile *)
  OPTIONAL_HEADER_MAGIC_PE : Z;
  OPTIONAL_HEADER_MAGIC_PE_PLUS : Z;
  pefile_PE : text -> gmap text File -> Result PE;
  (* nuitka.utils.WindowsResources *)
  RT_MANIFEST : Z;
  getResourcesFromDLL :
    text -> list Z -> bool -> gmap text File -> Result (list Z);
  deleteWindowsResources :
    text -> Z -> list Z -> gmap text File -> Result unit * gmap text File;
  (* ctypes.windll.version *)
  GetFileVersionInfoSizeW : text -> Z;
  GetFileVersionInfoSizeA : bytes -> Z;
  GetFileVersionInfoW : text -> Z -> option bytes;
  GetFileVersionInfoA : bytes -> Z -> option bytes;
  VerQueryValueA : bytes -> bytes -> option VsFixedFileInfoStructure;
}.

(** ** The module *)

Inductive Filename :=
| UnicodeName (s : text)      (* [type(filename) is unicode] *)
| BytesName (s : bytes).

(** The dictionary [getPEFileInformation] returns. *)
Record Extracted := { DLLs : list text; AMD64 : bool }.

Section SharedLibraries.
Context (h : Host).

  (** [python_version >= 0x300], which is also [str is not bytes]. *)
Definition py3 : bool := bool_decide (0x300 <= python_version h).

(** [s.decode(encoding)], strict. *)
Definition decode (encoding : text) (s : bytes) : Result text :=
  match codec_decode h encoding s with
  | Some u => Ok u
  | None => Raise UnicodeDecodeError
  end.

(** [s.decode()]: the default codec is UTF-8 on Python 3, ASCII before. *)
Definition decode_default (s : bytes) : Result text :=
  decode (if py3 then t "utf-8" else t "ascii") s.

(** Modelled from the spec: [executeToolChecked] (nuitka/utils/Execution.py)
    is not among the sources. The spec has it run the tool to completion and
    capture its output in full; a tool that is not installed is a fatal
    condition of its own, carrying the fixed diagnostic; the captured stderr
    goes through the filter where one is given; a non-zero exit, or any
    stderr content left after filtering, is a hard failure; otherwise the
    captured standard output is the result. *)
Definition executeToolChecked (logger : Logger) (command : list text)
    (absence_message : text) (stderr_filter : option (bytes -> bytes))
  : M bytes := fun w =>
  match spawn h command (files w) with
  | None => (Raise (ToolMissing absence_message), w)
  | Some (process, files') =>
      let w' := {| files := files';
                   journal := journal w ++ [ToolRun command] |} in
      let stderr' := match stderr_filter with
                     | Some f => f (stderr process)
                     | None => stderr process
                     end in
      if bool_decide (exit_code process ≠ 0) then (Raise (ToolFailed command), w')
      else if bool_decide (stderr' ≠ []) then (Raise (ToolFailed command), w')
      else (Ok (stdout process), w')
  end.

(** [stat.S_IWRITE] and a change of the permission bits of a file. *)
Definition S_IWRITE : Z := 0x80.   (* stat.S_IWRITE, 0o200 *)
Definition chmod (filename : text) (m : Z) (w : World) : World :=
  {| files := alter (fun f => {| data := data f; mode := m |}) filename (files w);
     journal := journal w |}.

(** Modelled from the spec: [withMadeWritableFileMode]
    (nuitka/utils/FileOperations.py) is not among the sources. The spec has
    it make the file writable for the duration of the body and put the
    original permission bits back afterwards, whether the body succeeded or
    raised. *)
Definition withMadeWritableFileMode {A} (filename : text) (body : M A) : M A :=
  fun w =>
  match files w !! filename with
  | None => body w
  | Some f =>
      let old_mode := mode f in
      let (r, w') := body (chmod filename (Z.lor old_mode S_IWRITE) w) in
      (r, chmod filename old_mode w')
  end.

(** *** locateDLLFromFilesystem *)

(* for root, _dirs, files in os.walk(path): if name in files: return ... *)
Fixpoint locateDLLFromFilesystem_walk (name : text)
    (entries : list (text * list text * list text)) : option text :=
  match entries with
  | [] => None
  | (root, _dirs, fs) :: rest =>
      if bool_decide (name ∈ fs) then Some (os_path_join h root name)
      else locateDLLFromFilesystem_walk name rest
  end.

Fixpoint locateDLLFromFilesystem (name : text) (paths : list text) : option text :=
  match paths with
  | [] => None
  | path :: rest =>
      match locateDLLFromFilesystem_walk name (os_walk h path) with
      | Some found => Some found
      | None => locateDLLFromFilesystem name rest
      end
  end.

(** *** locateDLL *)

Definition _ldconfig_usage : text :=
  t "The 'ldconfig' is used to analyse dependencies on ELF using systems and required to be found.".

(** The body of the loop over the rows of [ldconfig -p], in two steps: the
  two columns of the row, then the update of the map. *)
Definition locateDLL_columns (line : bytes) : Result (text * text) :=
  (* assert line.count(b"=>") == 1, line *)
  if negb (bool_decide (Py.count line (b "=>") = 1%nat))
  then Raise (AssertionError line)
  else
    (* left, right = line.strip().split(b" => ") *)
    match Py.split (Py.strip line) (b " => ") with
    | [left_; right_] =>
        (* assert b" (" in left, line *)
        if negb (Py.contains left_ (b " (")) then Raise (AssertionError line)
        else
          (* left = left[: left.rfind(b" (")] *)
          let left_ := Py.slice left_ 0 (Py.rfind left_ (b " (")) in
          (* if python_version >= 0x300: decode both columns *)
          left_ ← (if py3 then decode (getfilesystemencoding h) left_
                   else Ok (as_native left_));
          right_ ← (if py3 then decode (getfilesystemencoding h) right_
                    else Ok (as_native right_));
          Ok (left_, right_)
    | _ => Raise ValueError
    end.

(* if left not in dll_map: dll_map[left] = right *)
Definition locateDLL_update (dll_map : gmap text text) (row : text * text)
  : gmap text text :=
  match dll_map !! row.1 with
  | None => <[row.1 := row.2]> dll_map
  | Some _ => dll_map
  end.

Definition locateDLL_row (dll_map : gmap text text) (line : bytes)
  : Result (gmap text text) :=
  row ← locateDLL_columns line;
  Ok (locateDLL_update dll_map row).

Definition locateDLL (dll_name : text) : M (option text) :=
  match find_library h dll_name with
  | None => mret None
  | Some dll_name =>
      if isWin32Windows h then mret (Some (os_path_normpath h dll_name))
      else if bool_decide (getOS h = t "Darwin") then mret (Some dll_name)
      else if Py.contains dll_name (os_path_sep h) then
        match _get_soname h dll_name with
        | Some so_name =>
            mret (Some (os_path_join h (os_path_dirname h dll_name) so_name))
        | None => mret (Some dll_name)
        end
      else if isAlpineLinux h then
        mret (locateDLLFromFilesystem dll_name
                [t "/lib"; t "/usr/lib"; t "/usr/local/lib"])
      else
        output ← executeToolChecked postprocessing_logger
                   [t "/sbin/ldconfig"; t "-p"] _ldconfig_usage None;
        dll_map ← lift (for_each locateDLL_row
                          (Py.slice_from (Py.splitlines output) 1) ∅);
        match dll_map !! dll_name with
        | Some path => mret (Some path)
        | None => raise (KeyError dll_name)
        end
  end.

(** *** getSxsFromDLL, removeSxsFromDLL *)

Definition getSxsFromDLL (filename : text) (with_data : bool) : M (list Z) :=
  fun w =>
  (getResourcesFromDLL h filename [RT_MANIFEST h] with_data (files w),
   {| files := files w;
      journal := journal w ++ [ResourcesRead filename [RT_MANIFEST h]] |}).

Definition call_deleteWindowsResources (filename : text) (kind : Z)
    (names : list Z) : M unit := fun w =>
  let (r, files') := deleteWindowsResources h filename kind names (files w) in
  (r, {| files := files';
         journal := journal w ++ [ResourcesDeleted filename kind names] |}).

Definition removeSxsFromDLL (filename : text) : M unit :=
  if negb (bool_decide (os_path_normcase h (os_path_basename h filename)
                          ∈ [t "sip.pyd"; t "win32ui.pyd"; t "winxpgui.pyd"]))
  then mret tt
  else
    res_names ← getSxsFromDLL filename false;
    if bool_decide (res_names ≠ [])
    then call_deleteWindowsResources filename (RT_MANIFEST h) res_names
    else mret tt.

(** *** getWindowsDLLVersion *)

(* ctypes.windll.version.GetFileVersionInfoSizeW / ...SizeA *)
Definition GetFileVersionInfoSize (filename : Filename) : Z :=
  match filename with
  | UnicodeName s => GetFileVersionInfoSizeW h s
  | BytesName s => GetFileVersionInfoSizeA h s
  end.

(* ctypes.windll.version.GetFileVersionInfoW / ...InfoA: the filled
   buffer, when the call succeeds *)
Definition GetFileVersionInfo (filename : Filename) (size : Z) : option bytes :=
  match filename with
  | UnicodeName s => GetFileVersionInfoW h s size
  | BytesName s => GetFileVersionInfoA h s size
  end.

Definition getWindowsDLLVersion (filename : Filename) : Result (Z * Z * Z * Z) :=
  (* Get size needed for buffer (0 if no info) *)
  let size := GetFileVersionInfoSize filename in
  if bool_decide (size = 0) then Ok (0, 0, 0, 0)
  else
    (* Load file information into buffer res *)
    let success := GetFileVersionInfo filename size in
    match success with
    | None => Raise (AssertionError [])        (* assert success *)
    | Some res =>
        match VerQueryValueA h res (b "\\") with
        | None => Ok (0, 0, 0, 0)
        | Some file_info =>
            if negb (bool_decide (dwSignature file_info = 0xFEEF04BD))
            then Ok (0, 0, 0, 0)
            else
              let ms := dwFileVersionMS file_info in
              let ls := dwFileVersionLS file_info in
              Ok (Z.land (Z.shiftr ms 16) 0xFFFF, Z.land ms 0xFFFF,
                  Z.land (Z.shiftr ls 16) 0xFFFF, Z.land ls 0xFFFF)
        end
    end.

(** *** getPEFileInformation *)

(* pe_type2arch = {OPTIONAL_HEADER_MAGIC_PE: False,
                   OPTIONAL_HEADER_MAGIC_PE_PLUS: True} *)
Definition pe_type2arch : gmap Z bool :=
  <[OPTIONAL_HEADER_MAGIC_PE_PLUS h := true]>
    (<[OPTIONAL_HEADER_MAGIC_PE h := false]> ∅).

(* for imported_module in getattr(pe, "DIRECTORY_ENTRY_IMPORT", ()):
       extracted["DLLs"].append(imported_module.dll.decode()) *)
Definition imported_dlls (pe : PE) : Result (list text) :=
  map_result (fun imported_module => decode_default (dll imported_module))
    (default [] (DIRECTORY_ENTRY_IMPORT pe)).

Definition getPEFileInformation (filename : text) : M Extracted :=
  pe ← (fun w => (pefile_PE h filename (files w), w));
  dlls ← lift (imported_dlls pe);
  match pe_type2arch !! PE_TYPE pe with
  | None =>
      raise (NuitkaAssumptionError (t "Unknown PE file architecture")
               filename (PE_TYPE pe))
  | Some amd64 =>
      let python_is_64bit := bool_decide (getArchitecture h = t "x86_64") in
      (if negb (bool_decide (amd64 = python_is_64bit))
       then emit (LogWarning postprocessing_logger
                    (t "Python " ++ (if python_is_64bit then t "32" else t "64")
                     ++ t " bits with " ++ (if amd64 then t "64" else t "32")
                     ++ t " bits dependencies in '" ++ filename ++ t "'"))
       else mret tt);;
      mret {| DLLs := dlls; AMD64 := amd64 |}
  end.

(** *** getSharedLibraryRPATH *)

Definition _readelf_usage : text :=
  t "The 'readelf' is used to analyse dependencies on ELF using systems and required to be found.".

(** [result.decode("utf-8")] under [str is not bytes]. *)
Definition decode_result (result : bytes) : Result text :=
  if py3 then decode (t "utf-8") result else Ok (as_native result).

(* for line in output.split(b"\n"): ... return None *)
Fixpoint _getSharedLibraryRPATHElf_loop (lines : list bytes) : Result (option text) :=
  match lines with
  | [] => Ok None
  | line :: rest =>
      if Py.contains line (b "RPATH") || Py.contains line (b "RUNPATH") then
        let result := Py.slice line (Py.find line (b "[") + 1)
                                    (Py.rfind line (b "]")) in
        result ← decode_result result;
        Ok (Some result)
      else _getSharedLibraryRPATHElf_loop rest
  end.

Definition _getSharedLibraryRPATHElf (filename : text) : M (option text) :=
  output ← executeToolChecked postprocessing_logger
             [t "readelf"; t "-d"; filename] _readelf_usage None;
  lift (_getSharedLibraryRPATHElf_loop (Py.split output [Py.LF])).

Definition _otool_usage : text :=
  t "The 'otool' is used to analyse dependencies on macOS and required to be found.".

(* for line in output.split(b"\n"): ... return None *)
Fixpoint _getSharedLibraryRPATHDarwin_loop (cmd : bytes)
    (last_was_load_command : bool) (lines : list bytes) : Result (option text) :=
  match lines with
  | [] => Ok None
  | line :: rest =>
      let line := Py.strip line in
      if bool_decide (cmd = b "LC_RPATH") && Py.startswith line (b "path ") then
        let result := Py.slice line 5 (Py.rfind line (b "(") - 1) in
        result ← decode_result result;
        Ok (Some result)
      else
        (* if last_was_load_command and line.startswith(b"cmd "):
               cmd = line.split()[1] *)
        cmd ← (if last_was_load_command && Py.startswith line (b "cmd ")
               then match Py.split_ws line !! 1%nat with
                    | Some c => Ok c
                    | None => Raise IndexError
                    end
               else Ok cmd);
        _getSharedLibraryRPATHDarwin_loop cmd
          (Py.startswith line (b "Load command")) rest
  end.

Definition _getSharedLibraryRPATHDarwin (filename : text) : M (option text) :=
  output ← executeToolChecked postprocessing_logger
             [t "otool"; t "-l"; filename] _otool_usage None;
  lift (_getSharedLibraryRPATHDarwin_loop [] false (Py.split output [Py.LF])).

Definition getSharedLibraryRPATH (filename : text) : M (option text) :=
  if bool_decide (getOS h = t "Darwin")
  then _getSharedLibraryRPATHDarwin filename
  else _getSharedLibraryRPATHElf filename.

(** *** removeSharedLibraryRPATH *)

Definition _chrpath_usage : text :=
  t "Error, needs 'chrpath' on your system, due to 'RPATH' settings in used shared" ++ [10%N]
  ++ t "libraries that need to be removed.".

Definition _removeSharedLibraryRPATHElf (filename : text) : M unit :=
  executeToolChecked postprocessing_logger
    [t "chrpath"; t "-d"; filename] _chrpath_usage None;;
  mret tt.

Definition _filterInstallNameToolErrorOutput (stderr : bytes) : bytes :=
  Py.join [Py.LF]
    (List.filter
       (fun line =>
          negb (bool_decide (line = []))
          && negb (Py.contains line (b "invalidate the code signature")))
       (Py.splitlines stderr)).

Definition _installnametool_usage : text :=
  t "The 'install_name_tool' is used to make binaries portable on macOS and required to be found.".

Definition _removeSharedLibraryRPATHDarwin (filename rpath : text) : M unit :=
  executeToolChecked postprocessing_logger
    [t "install_name_tool"; t "-delete_rpath"; rpath; filename]
    _installnametool_usage (Some _filterInstallNameToolErrorOutput);;
  mret tt.

Definition removeSharedLibraryRPATH (filename : text) : M unit :=
  rpath ← getSharedLibraryRPATH filename;
  match rpath with
  | Some rpath =>
      (if isShowInclusion h
       then emit (LogInfo inclusion_logger
                    (t "Removing 'RPATH' setting '" ++ rpath ++ t "' from '"
                     ++ filename ++ t "'."))
       else mret tt);;
      withMadeWritableFileMode filename
        (if bool_decide (getOS h = t "Darwin")
         then _removeSharedLibraryRPATHDarwin filename rpath
         else _removeSharedLibraryRPATHElf filename)
  | None => mret tt
  end.

(** *** callInstallNameTool, removeMacOSCodeSignature *)

Definition callInstallNameTool (filename : text) (mapping : list (text * text))
    (rpath : option text) : M unit :=
  let command := [t "install_name_tool"] in
  let command := command
    ++ concat (map (fun '(old_path, new_path) => [t "-change"; old_path; new_path])
                 mapping) in
  let command := match rpath with
                 | Some rpath => command ++ [t "-add_rpath"; os_path_join h rpath (t ".")]
                 | None => command
                 end in
  let command := command ++ [filename] in
  withMadeWritableFileMode filename
    (executeToolChecked postprocessing_logger command
       _installnametool_usage (Some _filterInstallNameToolErrorOutput);;
     mret tt).

Definition _codesign_usage : text :=
  t "The 'codesign' is used to remove invalidated signatures on macOS and required to be found.".

Definition removeMacOSCodeSignature (filename : text) : M unit :=
  withMadeWritableFileMode filename
    (executeToolChecked postprocessing_logger
       [t "codesign"; t "--remove-signature"; filename] _codesign_usage None;;
     mret tt).

End SharedLibraries.

(** ** Vocabulary of the specification *)

(** The introspection command [getSharedLibraryRPATH] runs on this host. *)
Definition rpath_query (h : Host) (filename : text) : list text :=
  if bool_decide (getOS h = t "Darwin")
  then [t "otool"; t "-l"; filename]
  else [t "readelf"; t "-d"; filename].

(** A command that only reads: whatever it reports, the files are afterwards
    what they were before. *)
Definition read_only (h : Host) (command : list text) : Prop :=
  forall fs process fs', spawn h command fs = Some (process, fs') -> fs' = fs.

(** The host takes [locateDLL] to the [ldconfig -p] branch: the loader
    resolves [dll_name] to the bare name [so_name] on a POSIX machine that is
    neither macOS nor Alpine. *)
Definition ldconfig_branch (h : Host) (dll_name so_name : text) : Prop :=
  find_library h dll_name = Some so_name
  /\ isWin32Windows h = false
  /\ getOS h <> t "Darwin"
  /\ Py.contains so_name (os_path_sep h) = false
  /\ isAlpineLinux h = false.

(** The tool is installed, exits with 0 and writes nothing to stderr. *)
Definition runs_clean (h : Host) (command : list text) (w : World)
    (process : Completed) (files' : gmap text File) : Prop :=
  spawn h command (files w) = Some (process, files')
  /\ exit_code process = 0
  /\ stderr process = [].

(** The world after a tool has run. *)
Definition after_tool (command : list text) (w : World) (files' : gmap text File)
    : World :=
  {| files := files'; journal := journal w ++ [ToolRun command] |}.

(** A line without line terminators. *)
Definition clean (line : bytes) : Prop := (Py.LF ∉ line) /\ (Py.CR ∉ line).

(** The lines the stderr filter of [install_name_tool] lets go: empty ones
    and those with the code-signature warning. *)
Definition benign (line : bytes) : bool :=
  bool_decide (line = []) || Py.contains line (b "invalidate the code signature").

(** The path of the first row that declares [name]. *)
Fixpoint first_path (name : text) (rows : list (text * text)) : option text :=
  match rows with
  | [] => None
  | (declared, path) :: rest =>
      if bool_decide (declared = name) then Some path else first_path name rest
  end.

(** A line of [readelf -d] tagged RPATH or RUNPATH. *)
Definition tagged (line : bytes) : bool :=
  Py.contains line (b "RPATH") || Py.contains line (b "RUNPATH").

(** A report of [otool -l] without an LC_RPATH load command: no
    "Load command" header line is followed by a "cmd" line of that type. *)
Definition no_rpath_command (lines : list bytes) : Prop :=
  forall (i : nat) header command,
    lines !! i = Some header ->
    lines !! S i = Some command ->
    Py.startswith (Py.strip header) (b "Load command") = true ->
    Py.startswith (Py.strip command) (b "cmd ") = true ->
    Py.split_ws (Py.strip command) !! 1%nat <> Some (b "LC_RPATH").

(** The same, as a check that can be run on a report. *)
Fixpoint no_rpath_commandb (lines : list bytes) : bool :=
  match lines with
  | [] => true
  | header :: rest =>
      match rest with
      | [] => true
      | command :: _ =>
          negb (Py.startswith (Py.strip header) (b "Load command")
                && Py.startswith (Py.strip command) (b "cmd ")
                && bool_decide (Py.split_ws (Py.strip command) !! 1%nat
                                = Some (b "LC_RPATH")))
          && no_rpath_commandb rest
      end
  end.

(** The extension modules [removeSxsFromDLL] applies to. *)
Definition sxs_modules : list text :=
  [t "sip.pyd"; t "win32ui.pyd"; t "winxpgui.pyd"].

(** ** Example hosts

  Small machines on which the functions can be run: an ASCII-only codec,
  POSIX or Windows path conventions, a table of canned tool outputs. *)

Module Demo.

Definition ascii_decode (encoding : text) (s : bytes) : option text :=
  if forallb (fun c => (Byte.to_N c <? 128)%N) s then Some (as_native s) else None.

(** Join the lines of a canned tool report with "\n". *)
Definition report (lines : list string) : bytes :=
  Py.join [Py.LF] (map b lines).

Definition is_sep (c : N) : bool :=
  bool_decide (c = 47%N) || bool_decide (c = 92%N).

(* ntpath.basename, without drive handling *)
Fixpoint nt_basename (p : text) : text :=
  match p with
  | [] => []
  | c :: p' => if existsb is_sep p then nt_basename p' else p
  end.

(* ntpath.normcase on ASCII: "/" becomes "\\", upper case becomes lower *)
Definition nt_normcase (p : text) : text :=
  map (fun c => if bool_decide (c = 47%N) then 92%N
                else if ((65 <=? c) && (c <=? 90))%N then (c + 32)%N
                else c) p.

Definition posix_join (a c : text) : text := a ++ t "/" ++ c.

Definition make_host
    (version : Z) (os arch : text) (win32 alpine verbose : bool)
    (loader : text -> option text)
    (walk : text -> list (text * list text * list text))
    (tools : list text -> gmap text File -> option (Completed * gmap text File))
    (pe : text -> Result PE)
    (manifests : text -> Result (list Z))
    (version_size : Z)
    (version_block : option VsFixedFileInfoStructure) : Host :=
  {| python_version := version;
     getfilesystemencoding := t "utf-8";
     codec_decode := ascii_decode;
     getOS := os;
     isWin32Windows := win32;
     isAlpineLinux := alpine;
     getArchitecture := arch;
     isShowInclusion := verbose;
     find_library := loader;
     _get_soname := fun _ => None;
     os_path_sep := if win32 then t "\" else t "/";
     os_path_normpath := fun p => p;
     os_path_normcase := if win32 then nt_normcase else (fun p => p);
     os_path_basename := nt_basename;
     os_path_dirname := fun p => p;
     os_path_join := posix_join;
     os_walk := walk;
     spawn := tools;
     OPTIONAL_HEADER_MAGIC_PE := 0x10b;
     OPTIONAL_HEADER_MAGIC_PE_PLUS := 0x20b;
     pefile_PE := fun filename _ => pe filename;
     RT_MANIFEST := 24;
     getResourcesFromDLL := fun filename _ _ _ => manifests filename;
     deleteWindowsResources := fun filename _ _ fs =>
       (Ok tt, alter (fun f => {| data := []; mode := mode f |}) filename fs);
     GetFileVersionInfoSizeW := fun _ => version_size;
     GetFileVersionInfoSizeA := fun _ => version_size;
     GetFileVersionInfoW := fun _ size => Some (repeat "000"%byte (Z.to_nat size));
     GetFileVersionInfoA := fun _ size => Some (repeat "000"%byte (Z.to_nat size));
     VerQueryValueA := fun _ _ => version_block |}.

(** A tool runner that answers from a table of canned runs and leaves the
  files alone; [quiet out] is a run that exits with 0, prints [out] and
  writes nothing to stderr. *)
Definition quiet (out : bytes) : Completed :=
  {| exit_code := 0; stdout := out; stderr := [] |}.

Fixpoint canned (runs : list (list text * Completed)) (command : list text)
    (fs : gmap text File) : option (Completed * gmap text File) :=
  match runs with
  | [] => None
  | (c, run) :: rest =>
      if bool_decide (c = command) then Some (run, fs)
      else canned rest command fs
  end.

Definition no_tools : list text -> gmap text File -> option (Completed * gmap text File) :=
  fun _ _ => None.

Definition empty_world : World := {| files := ∅; journal := [] |}.

(** A Windows machine with three binaries: a 32-bit one, a 64-bit one
    and a ROM image (magic 0x107). *)
Definition pe_of (filename : text) : Result PE :=
  Ok {| PE_TYPE := if bool_decide (filename = t "a32.dll") then 0x10b
                   else if bool_decide (filename = t "a64.dll") then 0x20b
                   else 0x107;
        DIRECTORY_ENTRY_IMPORT := Some [ {| dll := b "KERNEL32.dll" |} ] |}.

Definition windows (size : Z) (block : option VsFixedFileInfoStructure) : Host :=
  make_host 0x390 (t "Windows") (t "x86_64") true false false
    (fun _ => None) (fun _ => []) no_tools pe_of (fun _ => Ok [1; 2]) size block.

End Demo.

Module DemoElf.

Definition without_rpath : bytes := Demo.report [
  "";
  "Dynamic section at offset 0x2d28 contains 27 entries:";
  "  Tag        Type                         Name/Value";
  " 0x0000000000000001 (NEEDED)             Shared library: [libc.so.6]";
  " 0x000000000000000c (INIT)               0x1000";
  ""]%string.

Definition with_runpath : bytes := Demo.report [
  "";
  "Dynamic section at offset 0x2d28 contains 28 entries:";
  "  Tag        Type                         Name/Value";
  " 0x0000000000000001 (NEEDED)             Shared library: [libc.so.6]";
  " 0x000000000000001d (RUNPATH)            Library runpath: [$ORIGIN/../lib]";
  " 0x000000000000000f (RPATH)              Library rpath: [/opt/other]";
  " 0x000000000000000c (INIT)               0x1000";
  ""]%string.

Definition ldconfig_cache : bytes := Demo.report [
  "2 libs found in cache `/etc/ld.so.cache'";
  "	libz.so.1 (libc6,x86-64) => /lib/x86_64-linux-gnu/libz.so.1";
  "	libz.so.1 (libc6) => /lib32/libz.so.1";
  "	libm.so.6 (libc6,x86-64) => /lib/x86_64-linux-gnu/libm.so.6"]%string.

(** A glibc Linux machine with Python 3.9: the loader resolves [z] and [m]
    to their sonames and nothing else. *)
Definition linux (cache : bytes) : Host :=
Demo.make_host 0x390 (t "Linux") (t "x86_64") false false false
    (fun name => if bool_decide (name = t "z") then Some (t "libz.so.1")
                 else if bool_decide (name = t "m") then Some (t "libm.so.6")
                 else None)
    (fun _ => [])
    (Demo.canned
       [ ([t "/sbin/ldconfig"; t "-p"], Demo.quiet cache);
         ([t "readelf"; t "-d"; t "plain.so"], Demo.quiet without_rpath);
         ([t "readelf"; t "-d"; t "tagged.so"], Demo.quiet with_runpath) ])
Demo.pe_of (fun _ => Ok []) 0 None.

(** A cache listing whose second row has its arrow without the blanks. *)
Definition ldconfig_glued : bytes := Demo.report [
  "2 libs found in cache `/etc/ld.so.cache'";
  "	libm.so.6 (libc6,x86-64) => /lib/x86_64-linux-gnu/libm.so.6";
  "	libz.so.1 (libc6,x86-64)=>/lib/x86_64-linux-gnu/libz.so.1"]%string.

(** A cache listing whose second row has no arrow at all. *)
Definition ldconfig_torn : bytes := Demo.report [
  "2 libs found in cache `/etc/ld.so.cache'";
  "	libm.so.6 (libc6,x86-64) => /lib/x86_64-linux-gnu/libm.so.6";
  "	libz.so.1 (libc6,x86-64)"]%string.

Definition disk : World :=
  {| files := {[ t "plain.so" := {| data := b "ELF-plain"; mode := 0x124 |} ;
                 t "tagged.so" := {| data := b "ELF-tagged"; mode := 0x124 |} ]};
     journal := [] |}.

End DemoElf.

Module DemoMachO.

Definition load_commands : bytes := Demo.report [
  "app.dylib:";
  "Load command 0";
  "      cmd LC_SEGMENT_64";
  "  cmdsize 72";
  "  segname __PAGEZERO";
  "Load command 1";
  "          cmd LC_RPATH";
  "      cmdsize 32";
  "         path @loader_path/../lib (offset 12)";
  "Load command 2";
  "          cmd LC_RPATH";
  "      cmdsize 32";
  "         path /opt/other (offset 12)"]%string.

Definition no_rpath_commands : bytes := Demo.report [
  "bare.dylib:";
  "Load command 0";
  "      cmd LC_SEGMENT_64";
  "  cmdsize 72";
  "  segname __PAGEZERO";
  "Load command 1";
  "          cmd LC_ID_DYLIB";
  "      cmdsize 48";
  "         name bare.dylib (offset 24)"]%string.

Definition signature_warning : bytes := Demo.report [
  "install_name_tool: warning: changes being made to the file will invalidate the code signature in: app.dylib";
  "";
  ""]%string.

(** A macOS machine with Python 3.9 whose [install_name_tool] prints the
  code-signature warning, and prints a real complaint about [bad.dylib]. *)
Definition macos : Host :=
  Demo.make_host 0x390 (t "Darwin") (t "x86_64") false false false
    (fun _ => None) (fun _ => [])
    (Demo.canned
       [ ([t "otool"; t "-l"; t "app.dylib"], Demo.quiet load_commands);
         ([t "otool"; t "-l"; t "bare.dylib"], Demo.quiet no_rpath_commands);
         ([t "install_name_tool"; t "-delete_rpath"; t "@loader_path/../lib";
           t "app.dylib"],
          {| exit_code := 0; stdout := []; stderr := signature_warning |});
         ([t "install_name_tool"; t "-delete_rpath"; t "/nowhere"; t "bad.dylib"],
          {| exit_code := 0; stdout := [];
             stderr := b "install_name_tool: no LC_RPATH load command with path: /nowhere" |}) ])
    Demo.pe_of (fun _ => Ok []) 0 None.

End DemoMachO.

(** ** The rest of the module *)

(** *** getPyWin32Dir

    [sys.path] and [os.path.isdir] are read from the interpreter and the
    disk; they are arguments here. *)

(* for path_element in sys.path:
       if not path_element: continue
       candidate = os.path.join(path_element, "pywin32_system32")
       if os.path.isdir(candidate): return candidate *)
Fixpoint getPyWin32Dir (h : Host) (isdir : text -> bool) (sys_path : list text)
    : option text :=
  match sys_path with
  | [] => None
  | path_element :: rest =>
      if bool_decide (path_element = []) then getPyWin32Dir h isdir rest
      else
        let candidate := os_path_join h path_element (t "pywin32_system32") in
        if isdir candidate then Some candidate
        else getPyWin32Dir h isdir rest
  end.

(** ** More vocabulary *)

(** A 32-bit version field from its high and low 16-bit words. *)
Definition version_field (high low : Z) : Z := Z.lor (Z.shiftl high 16) low.

(** An unsigned 16-bit number. *)
Definition word16 (x : Z) : Prop := 0 <= x < 65536.

(** The native string of the running interpreter for a byte string that
    came out of a tool: decoded with the given codec on Python 3, the bytes
    themselves before. *)
Definition native (h : Host) (encoding : text) (s : bytes) : Result text :=
  if py3 h then decode h encoding s else Ok (as_native s).

(** A row of [ldconfig -p]: indentation, declared name, flags in
    parentheses, arrow, path. *)
Definition ldconfig_row (indent name flags path : bytes) : bytes :=
  indent ++ name ++ b " (" ++ flags ++ b ") => " ++ path.

(** The argument vector [callInstallNameTool] builds. *)
Definition install_name_tool_command (h : Host) (filename : text)
    (mapping : list (text * text)) (rpath : option text) : list text :=
  [t "install_name_tool"]
  ++ concat (map (fun '(old_path, new_path) => [t "-change"; old_path; new_path])
               mapping)
  ++ match rpath with
     | Some rpath => [t "-add_rpath"; os_path_join h rpath (t ".")]
     | None => []
     end
  ++ [filename].

(** The command [removeSharedLibraryRPATH] patches the binary with. *)
Definition rpath_removal (h : Host) (filename rpath : text) : list text :=
  if bool_decide (getOS h = t "Darwin")
  then [t "install_name_tool"; t "-delete_rpath"; rpath; filename]
  else [t "chrpath"; t "-d"; filename].





Module DemoMore.

(** A cache listing that does not declare [libz.so.1]. *)
Definition ldconfig_without_z : bytes := Demo.report [
  "1 libs found in cache `/etc/ld.so.cache'";
  "	libm.so.6 (libc6,x86-64) => /lib/x86_64-linux-gnu/libm.so.6"]%string.

(** A Python 3.9 Linux machine whose [readelf] prints a byte above 127,
    which the codec of the example rejects. *)
Definition linux_latin1 : Host :=
  Demo.make_host 0x390 (t "Linux") (t "x86_64") false false false
    (fun _ => None) (fun _ => [])
    (Demo.canned
       [ ([t "readelf"; t "-d"; t "odd.so"],
          Demo.quiet (b " 0x1d (RUNPATH) Library runpath: [/opt/" ++ ["233"%byte]
                      ++ b "]")) ])
    Demo.pe_of (fun _ => Ok []) 0 None.

(** A Linux machine whose [readelf] prints a tagged line without brackets. *)
Definition linux_bare_tag : Host :=
  Demo.make_host 0x390 (t "Linux") (t "x86_64") false false false
    (fun _ => None) (fun _ => [])
    (Demo.canned
       [ ([t "readelf"; t "-d"; t "bare.so"],
          Demo.quiet (Demo.report ["Dynamic section:";
                                   " 0x1d (RUNPATH) /opt/lib"]%string)) ])
    Demo.pe_of (fun _ => Ok []) 0 None.

(** A macOS machine whose [otool] prints a path line without annotation. *)
Definition bare_path_report : bytes := Demo.report [
  "odd.dylib:";
  "Load command 0";
  "      cmd LC_RPATH";
  "  cmdsize 32";
  "     path /opt/lib"]%string.

Definition macos_bare_path : Host :=
  Demo.make_host 0x390 (t "Darwin") (t "x86_64") false false true
    (fun _ => None) (fun _ => [])
    (Demo.canned
       [ ([t "otool"; t "-l"; t "odd.dylib"], Demo.quiet bare_path_report) ])
    Demo.pe_of (fun _ => Ok []) 0 None.

(** A macOS machine on which one [install_name_tool] call is expected. *)
Definition macos_patch : Host :=
  Demo.make_host 0x390 (t "Darwin") (t "x86_64") false false false
    (fun _ => None) (fun _ => [])
    (Demo.canned
       [ ([t "install_name_tool";
           t "-change"; t "/usr/lib/libz.1.dylib"; t "@rpath/libz.1.dylib";
           t "-change"; t "/usr/lib/libssl.dylib"; t "@rpath/libssl.dylib";
           t "-add_rpath"; t "@executable_path/.";
           t "app.dylib"],
          {| exit_code := 0; stdout := [];
             stderr := DemoMachO.signature_warning |}) ])
    Demo.pe_of (fun _ => Ok []) 0 None.


(** An Alpine machine: [libz.so.1] is in both [/lib] and [/usr/lib]. *)
Definition alpine : Host :=
  Demo.make_host 0x390 (t "Linux") (t "x86_64") false true false
    (fun name => if bool_decide (name = t "z") then Some (t "libz.so.1") else None)
    (fun path =>
       if bool_decide (path = t "/lib")
       then [ (t "/lib", [t "apk"], [t "libc.musl-x86_64.so.1"]);
              (t "/lib/apk", [], [t "libz.so.1"]) ]
       else if bool_decide (path = t "/usr/lib")
       then [ (t "/usr/lib", [], [t "libz.so.1"; t "libssl.so.3"]) ]
       else [])
    Demo.no_tools Demo.pe_of (fun _ => Ok []) 0 None.

(** A Windows machine whose resource reader fails. *)
Definition windows_unreadable : Host :=
  Demo.make_host 0x390 (t "Windows") (t "x86") true false false
    (fun _ => None) (fun _ => []) Demo.no_tools
    (fun _ => Ok {| PE_TYPE := 0x20b;
                    DIRECTORY_ENTRY_IMPORT :=
                      Some [ {| dll := b "KERNEL32.dll" |};
                             {| dll := b "caf" ++ ["233"%byte] ++ b ".dll" |} ] |})
    (fun _ => Raise CollaboratorError) 0 None.

(** A Windows machine on which loading the version block fails. *)
Definition windows_no_version_block : Host :=
  let h := Demo.windows 52 None in
  {| python_version := python_version h;
     getfilesystemencoding := getfilesystemencoding h;
     codec_decode := codec_decode h;
     getOS := getOS h;
     isWin32Windows := isWin32Windows h;
     isAlpineLinux := isAlpineLinux h;
     getArchitecture := getArchitecture h;
     isShowInclusion := isShowInclusion h;
     find_library := find_library h;
     _get_soname := _get_soname h;
     os_path_sep := os_path_sep h;
     os_path_normpath := os_path_normpath h;
     os_path_normcase := os_path_normcase h;
     os_path_basename := os_path_basename h;
     os_path_dirname := os_path_dirname h;
     os_path_join := os_path_join h;
     os_walk := os_walk h;
     spawn := spawn h;
     OPTIONAL_HEADER_MAGIC_PE := OPTIONAL_HEADER_MAGIC_PE h;
     OPTIONAL_HEADER_MAGIC_PE_PLUS := OPTIONAL_HEADER_MAGIC_PE_PLUS h;
     pefile_PE := pefile_PE h;
     RT_MANIFEST := RT_MANIFEST h;
     getResourcesFromDLL := getResourcesFromDLL h;
     deleteWindowsResources := deleteWindowsResources h;
     GetFileVersionInfoSizeW := GetFileVersionInfoSizeW h;
     GetFileVersionInfoSizeA := GetFileVersionInfoSizeA h;
     GetFileVersionInfoW := fun _ _ => None;
     GetFileVersionInfoA := fun _ _ => None;
     VerQueryValueA := VerQueryValueA h |}.

(** A 64-bit Python on Windows looking at binaries that import
    [KERNEL32.dll] twice and [USER32.dll] once. *)
Definition windows_two_imports : Host :=
  Demo.make_host 0x390 (t "Windows") (t "x86_64") true false false
    (fun _ => None) (fun _ => []) Demo.no_tools
    (fun filename =>
       Ok {| PE_TYPE := if bool_decide (filename = t "a32.dll") then 0x10b else 0x20b;
             DIRECTORY_ENTRY_IMPORT :=
               Some [ {| dll := b "KERNEL32.dll" |};
                      {| dll := b "USER32.dll" |};
                      {| dll := b "KERNEL32.dll" |} ] |})
    (fun _ => Ok []) 0 None.

End DemoMore.
(** * Properties *)

(** ** Readings of the sequence operations against the interpreter's answers *)

Example startswith_ex : Py.startswith (b "path /usr/lib") (b "path ") = true.
Proof. reflexivity. Qed.

Example find_ex : Py.find (b "a [x] [y]") (b "[") = 2 /\ Py.rfind (b "a [x] [y]") (b "]") = 8.
Proof. split; reflexivity. Qed.
Example find_none_ex : Py.find (b "abc") (b "[") = -1 /\ Py.rfind (b "abc") (b "]") = -1.
Proof. split; reflexivity. Qed.
Example count_ex : Py.count (b "a=>=>b =>") (b "=>") = 3%nat /\ Py.count (b "aaa") (b "aa") = 1%nat.
Proof. split; reflexivity. Qed.
Example split_ex : Py.split (b "x => y => z") (b " => ") = [b "x"; b "y"; b "z"].
Proof. reflexivity. Qed.
Example split_none_ex : Py.split (b "x=>y") (b " => ") = [b "x=>y"].
Proof. reflexivity. Qed.
Example slice_ex : Py.slice (b "abcdef") 2 (-1) = b "cde" /\ Py.slice (b "abcdef") 4 2 = [].
Proof. split; reflexivity. Qed.
Example strip_ex : Py.strip (Py.LF :: b "  a b " ++ [Py.CR]) = b "a b".
Proof. reflexivity. Qed.
Example split_ws_ex : Py.split_ws (b "cmd   LC_RPATH  x") = [b "cmd"; b "LC_RPATH"; b "x"].
Proof. reflexivity. Qed.
Example splitlines_ex :
  Py.splitlines (b "a" ++ [Py.CR; Py.LF] ++ b "b" ++ [Py.LF; Py.LF] ++ b "c" ++ [Py.LF])
  = [b "a"; b "b"; []; b "c"].
Proof. reflexivity. Qed.

(** ** Running the monad *)

Lemma bind_ok {A B} (m : M A) (k : A -> M B) w a w' :
  m w = (Ok a, w') -> (m ≫= k) w = k a w'.
Proof. intros E. unfold mbind, M_bind, bind. now rewrite E. Qed.

Lemma bind_raise {A B} (m : M A) (k : A -> M B) w e w' :
  m w = (Raise e, w') -> (m ≫= k) w = (Raise e, w').
Proof. intros E. unfold mbind, M_bind, bind. now rewrite E. Qed.

(** ** getWindowsDLLVersion *)

Lemma version_words_1_2_3_4 :
  (Z.land (Z.shiftr 0x00010002 16) 0xFFFF, Z.land 0x00010002 0xFFFF,
   Z.land (Z.shiftr 0x00030004 16) 0xFFFF, Z.land 0x00030004 0xFFFF) = (1, 2, 3, 4).
Proof. reflexivity. Qed.

(** Every component of a decoded version is an unsigned 16-bit number. *)
Lemma getWindowsDLLVersion_range h filename a1 a2 a3 a4 :
  getWindowsDLLVersion h filename = Ok (a1, a2, a3, a4) ->
  Forall (fun x => 0 <= x < 65536) [a1; a2; a3; a4].
Proof.
  unfold getWindowsDLLVersion.
  assert (Hland : forall x, 0 <= Z.land x 0xFFFF < 65536).
  { intros x. change 0xFFFF with (Z.ones 16). rewrite Z.land_ones by lia.
    apply Z.mod_pos_bound. lia. }
  repeat case_bool_decide; simpl;
    repeat (case_match; simpl); intros E; inversion E; subst;
    repeat constructor; try lia; apply Hland.
Qed.

(** C2. [getWindowsDLLVersion] answers [(0, 0, 0, 0)], without raising, when
    the size query yields zero, when the root query of the loaded block
    fails, and when the fixed-file-info signature is not [0xFEEF04BD]; on a
    block whose signature is [0xFEEF04BD], whose [dwFileVersionMS] is
    [0x00010002] and whose [dwFileVersionLS] is [0x00030004] it answers
    [(1, 2, 3, 4)], the high and low 16-bit words of the two fields. *)
Theorem getWindowsDLLVersion_decodes (h : Host) (filename : Filename) :
  (GetFileVersionInfoSize h filename = 0 ->
   getWindowsDLLVersion h filename = Ok (0, 0, 0, 0))
  /\ (forall res,
        GetFileVersionInfoSize h filename <> 0 ->
        GetFileVersionInfo h filename (GetFileVersionInfoSize h filename) = Some res ->
        VerQueryValueA h res (b "\\") = None ->
        getWindowsDLLVersion h filename = Ok (0, 0, 0, 0))
  /\ (forall res file_info,
        GetFileVersionInfoSize h filename <> 0 ->
        GetFileVersionInfo h filename (GetFileVersionInfoSize h filename) = Some res ->
        VerQueryValueA h res (b "\\") = Some file_info ->
        dwSignature file_info <> 0xFEEF04BD ->
        getWindowsDLLVersion h filename = Ok (0, 0, 0, 0))
  /\ (forall res file_info,
        GetFileVersionInfoSize h filename <> 0 ->
        GetFileVersionInfo h filename (GetFileVersionInfoSize h filename) = Some res ->
        VerQueryValueA h res (b "\\") = Some file_info ->
        dwSignature file_info = 0xFEEF04BD ->
        dwFileVersionMS file_info = 0x00010002 ->
        dwFileVersionLS file_info = 0x00030004 ->
        getWindowsDLLVersion h filename = Ok (1, 2, 3, 4)).
Proof.
  unfold getWindowsDLLVersion. split; [|split; [|split]].
  - intros ->. reflexivity.
  - intros res Hsize Hload Hquery.
    rewrite bool_decide_eq_false_2 by assumption. now rewrite Hload, Hquery.
  - intros res file_info Hsize Hload Hquery Hsig.
    rewrite bool_decide_eq_false_2 by assumption. rewrite Hload, Hquery.
    now rewrite (bool_decide_eq_false_2 _ Hsig).
  - intros res file_info Hsize Hload Hquery Hsig Hms Hls.
    rewrite bool_decide_eq_false_2 by assumption. rewrite Hload, Hquery.
    rewrite (bool_decide_eq_true_2 _ Hsig). simpl.
    rewrite Hms, Hls. now rewrite version_words_1_2_3_4.
Qed.

(** The four situations of C2 on the example Windows machine. *)
Lemma getWindowsDLLVersion_decodes_witness :
  let crafted := {| dwSignature := 0xFEEF04BD;
                    dwFileVersionMS := 0x00010002;
                    dwFileVersionLS := 0x00030004 |} in
  let wrong := {| dwSignature := 0xFEEF04BE;
                  dwFileVersionMS := 0x00010002;
                  dwFileVersionLS := 0x00030004 |} in
  let name := UnicodeName (t "python39.dll") in
  getWindowsDLLVersion (Demo.windows 0 (Some crafted)) name = Ok (0, 0, 0, 0)
  /\ getWindowsDLLVersion (Demo.windows 52 None) name = Ok (0, 0, 0, 0)
  /\ getWindowsDLLVersion (Demo.windows 52 (Some wrong)) name = Ok (0, 0, 0, 0)
  /\ getWindowsDLLVersion (Demo.windows 52 (Some crafted)) name = Ok (1, 2, 3, 4).
Proof.
  intros crafted wrong name. split; [|split; [|split]].
  - apply (getWindowsDLLVersion_decodes (Demo.windows 0 (Some crafted)) name).
    reflexivity.
  - apply (proj1 (proj2 (getWindowsDLLVersion_decodes (Demo.windows 52 None) name))
             (repeat "000"%byte 52)); [discriminate | reflexivity | reflexivity].
  - apply (proj1 (proj2 (proj2
             (getWindowsDLLVersion_decodes (Demo.windows 52 (Some wrong)) name)))
             (repeat "000"%byte 52) wrong);
      [discriminate | reflexivity | reflexivity | discriminate].
  - apply (proj2 (proj2 (proj2
             (getWindowsDLLVersion_decodes (Demo.windows 52 (Some crafted)) name)))
             (repeat "000"%byte 52) crafted);
      [discriminate | reflexivity | reflexivity | reflexivity | reflexivity | reflexivity].
Defined.

(** ** getPEFileInformation *)

Lemma pe_type2arch_lookup h magic :
  OPTIONAL_HEADER_MAGIC_PE h <> OPTIONAL_HEADER_MAGIC_PE_PLUS h ->
  pe_type2arch h !! magic =
    if bool_decide (magic = OPTIONAL_HEADER_MAGIC_PE h) then Some false
    else if bool_decide (magic = OPTIONAL_HEADER_MAGIC_PE_PLUS h) then Some true
    else None.
Proof.
  intros Hne. unfold pe_type2arch.
  repeat case_bool_decide; subst.
  - rewrite lookup_insert_ne by congruence. apply lookup_insert_eq.
  - apply lookup_insert_eq.
  - rewrite !lookup_insert_ne by congruence. apply lookup_empty.
Qed.

Lemma getPEFileInformation_unfold h filename w pe dlls :
  pefile_PE h filename (files w) = Ok pe ->
  imported_dlls h pe = Ok dlls ->
  getPEFileInformation h filename w =
    match pe_type2arch h !! PE_TYPE pe with
    | None => (Raise (NuitkaAssumptionError (t "Unknown PE file architecture")
                        filename (PE_TYPE pe)), w)
    | Some amd64 =>
        (Ok {| DLLs := dlls; AMD64 := amd64 |},
         if negb (bool_decide (amd64 = bool_decide (getArchitecture h = t "x86_64")))
         then {| files := files w;
                 journal := journal w ++
                   [LogWarning postprocessing_logger
                      (t "Python "
                       ++ (if bool_decide (getArchitecture h = t "x86_64")
                           then t "32" else t "64")
                       ++ t " bits with " ++ (if amd64 then t "64" else t "32")
                       ++ t " bits dependencies in '" ++ filename ++ t "'")] |}
         else w)
    end.
Proof.
  intros Hpe Hdlls. unfold getPEFileInformation.
  unfold mbind, M_bind, bind, lift. rewrite Hpe, Hdlls.
  destruct (pe_type2arch h !! PE_TYPE pe) as [amd64|]; [|reflexivity].
  destruct (negb _); reflexivity.
Qed.

(** C1. On a PE file whose optional-header magic is
    [OPTIONAL_HEADER_MAGIC_PE], [getPEFileInformation] returns the flag
    [AMD64 = False]; on [OPTIONAL_HEADER_MAGIC_PE_PLUS] it returns
    [AMD64 = True]; on every other magic it raises [NuitkaAssumptionError]
    and in no case returns a dictionary, so no flag is ever guessed. *)
Theorem getPEFileInformation_architecture
    (h : Host) (filename : text) (w : World) (pe : PE) :
  OPTIONAL_HEADER_MAGIC_PE h <> OPTIONAL_HEADER_MAGIC_PE_PLUS h ->
  pefile_PE h filename (files w) = Ok pe ->
  (forall dlls, imported_dlls h pe = Ok dlls ->
     (PE_TYPE pe = OPTIONAL_HEADER_MAGIC_PE h ->
      exists w', getPEFileInformation h filename w
                 = (Ok {| DLLs := dlls; AMD64 := false |}, w')
                 /\ files w' = files w)
     /\ (PE_TYPE pe = OPTIONAL_HEADER_MAGIC_PE_PLUS h ->
         exists w', getPEFileInformation h filename w
                    = (Ok {| DLLs := dlls; AMD64 := true |}, w')
                    /\ files w' = files w)
     /\ (PE_TYPE pe <> OPTIONAL_HEADER_MAGIC_PE h ->
         PE_TYPE pe <> OPTIONAL_HEADER_MAGIC_PE_PLUS h ->
         getPEFileInformation h filename w
         = (Raise (NuitkaAssumptionError (t "Unknown PE file architecture")
                     filename (PE_TYPE pe)), w)))
  /\ (PE_TYPE pe <> OPTIONAL_HEADER_MAGIC_PE h ->
      PE_TYPE pe <> OPTIONAL_HEADER_MAGIC_PE_PLUS h ->
      forall extracted w', getPEFileInformation h filename w <> (Ok extracted, w')).
Proof.
  intros Hne Hpe. split.
  - intros dlls Hdlls.
    rewrite (getPEFileInformation_unfold h filename w pe dlls Hpe Hdlls).
    rewrite (pe_type2arch_lookup h (PE_TYPE pe) Hne).
    split; [|split].
    + intros E. rewrite (bool_decide_eq_true_2 _ E).
      eexists. split; [reflexivity|]. now destruct (negb _).
    + intros E. rewrite bool_decide_eq_false_2 by congruence.
      rewrite (bool_decide_eq_true_2 _ E).
      eexists. split; [reflexivity|]. now destruct (negb _).
    + intros N1 N2. now rewrite !bool_decide_eq_false_2 by assumption.
  - intros N1 N2 extracted w'.
    destruct (imported_dlls h pe) as [dlls|e] eqn:Hdlls.
    + rewrite (getPEFileInformation_unfold h filename w pe dlls Hpe Hdlls).
      rewrite (pe_type2arch_lookup h (PE_TYPE pe) Hne).
      rewrite !bool_decide_eq_false_2 by assumption. discriminate.
    + unfold getPEFileInformation, mbind, M_bind, bind, lift.
      rewrite Hpe, Hdlls. discriminate.
Qed.

(** A 32-bit, a 64-bit and a ROM image on the example Windows machine. *)
Lemma getPEFileInformation_architecture_witness :
  let h := Demo.windows 0 None in
  let w := Demo.empty_world in
  (exists w', getPEFileInformation h (t "a32.dll") w
              = (Ok {| DLLs := [t "KERNEL32.dll"]; AMD64 := false |}, w')
              /\ files w' = files w)
  /\ (exists w', getPEFileInformation h (t "a64.dll") w
                 = (Ok {| DLLs := [t "KERNEL32.dll"]; AMD64 := true |}, w')
                 /\ files w' = files w)
  /\ getPEFileInformation h (t "rom.bin") w
     = (Raise (NuitkaAssumptionError (t "Unknown PE file architecture")
                 (t "rom.bin") 0x107), w).
Proof.
  intros h w.
  pose proof (getPEFileInformation_architecture h (t "a32.dll") w
                {| PE_TYPE := 0x10b;
                   DIRECTORY_ENTRY_IMPORT := Some [ {| dll := b "KERNEL32.dll" |} ] |}
                ltac:(discriminate) eq_refl) as [H32 _].
  pose proof (getPEFileInformation_architecture h (t "a64.dll") w
                {| PE_TYPE := 0x20b;
                   DIRECTORY_ENTRY_IMPORT := Some [ {| dll := b "KERNEL32.dll" |} ] |}
                ltac:(discriminate) eq_refl) as [H64 _].
  pose proof (getPEFileInformation_architecture h (t "rom.bin") w
                {| PE_TYPE := 0x107;
                   DIRECTORY_ENTRY_IMPORT := Some [ {| dll := b "KERNEL32.dll" |} ] |}
                ltac:(discriminate) eq_refl) as [Hrom _].
  split; [|split].
  - exact (proj1 (H32 [t "KERNEL32.dll"] eq_refl) eq_refl).
  - exact (proj1 (proj2 (H64 [t "KERNEL32.dll"] eq_refl)) eq_refl).
  - apply (proj2 (proj2 (Hrom [t "KERNEL32.dll"] eq_refl))); discriminate.
Defined.

(** ** locateDLL: a name the loader cannot resolve *)

(** C4. When the host loader cannot resolve the name
    ([ctypes.util.find_library] answers [None]), [locateDLL] returns [None]
    and raises nothing, whatever the platform branch and whatever the
    fallback sources hold; no tool is run. *)
Theorem locateDLL_unresolved_is_absent (h : Host) (dll_name : text) (w : World) :
  find_library h dll_name = None ->
  locateDLL h dll_name w = (Ok None, w).
Proof. intros Hfind. unfold locateDLL. now rewrite Hfind. Qed.

Lemma locateDLL_unresolved_is_absent_witness :
  let h := Demo.make_host 0x390 (t "Linux") (t "x86_64") false false false
             (fun _ => None) (fun _ => []) Demo.no_tools Demo.pe_of
             (fun _ => Ok []) 0 None in
  find_library h (t "nosuchlib") = None
  /\ locateDLL h (t "nosuchlib") Demo.empty_world = (Ok None, Demo.empty_world).
Proof.
  intros h. split; [reflexivity|].
  apply (locateDLL_unresolved_is_absent h (t "nosuchlib") Demo.empty_world).
  reflexivity.
Defined.

(** Beyond the unresolved name: what the two fallback sources do with a bare
    name the loader did resolve. The Alpine walk answers [None] when no
    walked directory lists the name. *)
Lemma locateDLLFromFilesystem_walk_absent h (name : text) entries :
  Forall (fun entry => name ∉ entry.2) entries ->
  locateDLLFromFilesystem_walk h name entries = None.
Proof.
  induction 1 as [|[[root dirs] fs] entries Hout _ IH]; [reflexivity|].
  simpl in *. now rewrite (bool_decide_eq_false_2 _ Hout).
Qed.

Lemma locateDLLFromFilesystem_absent h (name : text) paths :
  (forall path, Forall (fun entry => name ∉ entry.2) (os_walk h path)) ->
  locateDLLFromFilesystem h name paths = None.
Proof.
  intros Hout. induction paths as [|path paths IH]; [reflexivity|].
  simpl. now rewrite (locateDLLFromFilesystem_walk_absent h name _ (Hout path)).
Qed.

(** ** removeSxsFromDLL *)

(** C9. [removeSxsFromDLL] does nothing at all (no resource is enumerated,
    none is deleted, the world is the same) when the case-normalised basename
    of the file is none of [sip.pyd], [win32ui.pyd], [winxpgui.pyd], whatever
    the file holds. For a file of that list it enumerates the [RT_MANIFEST]
    resources and, when there are some, asks for the deletion of exactly the
    enumerated names; when there are none it deletes nothing. *)
Theorem removeSxsFromDLL_allow_list (h : Host) (filename : text) (w : World) :
  (os_path_normcase h (os_path_basename h filename) ∉ sxs_modules ->
   removeSxsFromDLL h filename w = (Ok tt, w))
  /\ (forall res_names,
        os_path_normcase h (os_path_basename h filename) ∈ sxs_modules ->
        getResourcesFromDLL h filename [RT_MANIFEST h] false (files w) = Ok res_names ->
        (res_names = [] ->
         removeSxsFromDLL h filename w
         = (Ok tt, {| files := files w;
                      journal := journal w ++ [ResourcesRead filename [RT_MANIFEST h]] |}))
        /\ (res_names <> [] ->
            removeSxsFromDLL h filename w
            = ((deleteWindowsResources h filename (RT_MANIFEST h) res_names (files w)).1,
               {| files :=
                    (deleteWindowsResources h filename (RT_MANIFEST h) res_names (files w)).2;
                  journal := journal w ++
                    [ResourcesRead filename [RT_MANIFEST h];
                     ResourcesDeleted filename (RT_MANIFEST h) res_names] |}))).
Proof.
  unfold removeSxsFromDLL, sxs_modules. split.
  - intros Hout. now rewrite (bool_decide_eq_false_2 _ Hout).
  - intros res_names Hin Hres. rewrite (bool_decide_eq_true_2 _ Hin). simpl.
    unfold mbind, M_bind, bind, getSxsFromDLL. rewrite Hres. split.
    + intros ->. reflexivity.
    + intros Hsome. rewrite (bool_decide_eq_true_2 _ Hsome).
      unfold call_deleteWindowsResources. simpl.
      destruct (deleteWindowsResources _ _ _ _ _) as [r fs']. simpl.
      now rewrite <- app_assoc.
Qed.

(** On the example Windows machine: a system DLL is left alone, the manifests
    1 and 2 of [Win32UI.pyd] are deleted. *)
Lemma removeSxsFromDLL_allow_list_witness :
  let h := Demo.windows 0 None in
  let w := {| files := {[ t "C:\py\Win32UI.pyd" := {| data := b "MZ"; mode := 0x124 |} ]};
              journal := [] |} in
  removeSxsFromDLL h (t "C:\Windows\System32\KERNEL32.DLL") w = (Ok tt, w)
  /\ removeSxsFromDLL h (t "C:\py\Win32UI.pyd") w
     = (Ok tt,
        {| files := {[ t "C:\py\Win32UI.pyd" := {| data := []; mode := 0x124 |} ]};
           journal := [ResourcesRead (t "C:\py\Win32UI.pyd") [24];
                       ResourcesDeleted (t "C:\py\Win32UI.pyd") 24 [1; 2]] |}).
Proof.
  intros h w. split.
  - apply (proj1 (removeSxsFromDLL_allow_list h (t "C:\Windows\System32\KERNEL32.DLL") w)).
    apply (bool_decide_eq_false_1 _). vm_compute. reflexivity.
  - assert (Hin : os_path_normcase h (os_path_basename h (t "C:\py\Win32UI.pyd"))
                  ∈ sxs_modules)
      by (apply (bool_decide_eq_true_1 _); vm_compute; reflexivity).
    rewrite (proj2 (proj2 (removeSxsFromDLL_allow_list h (t "C:\py\Win32UI.pyd") w)
                      [1; 2] Hin eq_refl)) by discriminate.
    vm_compute. reflexivity.
Defined.

(** ** removeSharedLibraryRPATH on a binary without RPATH *)

Lemma executeToolChecked_ok h logger command message stderr_filter w out w' :
  executeToolChecked h logger command message stderr_filter w = (Ok out, w') ->
  exists process files',
    spawn h command (files w) = Some (process, files')
    /\ exit_code process = 0
    /\ match stderr_filter with
       | Some f => f (stderr process)
       | None => stderr process
       end = []
    /\ out = stdout process
    /\ w' = {| files := files'; journal := journal w ++ [ToolRun command] |}.
Proof.
  unfold executeToolChecked.
  destruct (spawn h command (files w)) as [[process files']|]; [|discriminate].
  repeat case_bool_decide; try discriminate.
  intros E. inversion E; subst. exists process, files'.
  repeat split; try reflexivity.
  - destruct (decide (exit_code process = 0)); [assumption|contradiction].
  - match goal with |- ?x = [] => destruct (decide (x = [])); [assumption|contradiction] end.
Qed.

Lemma getSharedLibraryRPATH_ok h filename w r w1 :
  getSharedLibraryRPATH h filename w = (Ok r, w1) ->
  exists process files',
    spawn h (rpath_query h filename) (files w) = Some (process, files')
    /\ w1 = {| files := files';
               journal := journal w ++ [ToolRun (rpath_query h filename)] |}.
Proof.
  unfold getSharedLibraryRPATH, rpath_query.
  unfold _getSharedLibraryRPATHDarwin, _getSharedLibraryRPATHElf.
  unfold mbind, M_bind, bind, lift.
  case_bool_decide;
    match goal with
    | |- context [executeToolChecked ?h ?l ?c ?m ?f ?w] =>
        destruct (executeToolChecked h l c m f w) as [[out|e] w'] eqn:Htool
    end; try discriminate;
    intros E; inversion E; subst;
    destruct (executeToolChecked_ok _ _ _ _ _ _ _ _ Htool)
      as (process & files' & Hspawn & _ & _ & _ & ->);
    exists process, files'; (split; [assumption|reflexivity]).
Qed.

(** C3. When [getSharedLibraryRPATH] finds no RPATH/RUNPATH entry in the
    binary, [removeSharedLibraryRPATH] stops there: it ends in the very world
    the lookup left, so no patching tool is run (the journal holds the
    lookup's own query and nothing more), the file mode is not touched, and,
    the query being a read-only command, every file on disk is what it was
    before the call. *)
Theorem removeSharedLibraryRPATH_without_rpath
    (h : Host) (filename : text) (w w1 : World) :
  getSharedLibraryRPATH h filename w = (Ok None, w1) ->
  removeSharedLibraryRPATH h filename w = (Ok tt, w1)
  /\ journal w1 = journal w ++ [ToolRun (rpath_query h filename)]
  /\ (read_only h (rpath_query h filename) -> files w1 = files w).
Proof.
  intros Hget. split; [|split].
  - unfold removeSharedLibraryRPATH. now rewrite (bind_ok _ _ _ _ _ Hget).
  - destruct (getSharedLibraryRPATH_ok _ _ _ _ _ Hget) as (p & fs' & _ & ->).
    reflexivity.
  - intros Hro.
    destruct (getSharedLibraryRPATH_ok _ _ _ _ _ Hget) as (p & fs' & Hspawn & ->).
    simpl. exact (Hro _ _ _ Hspawn).
Qed.

Lemma canned_read_only reports command fs process fs' :
Demo.canned reports command fs = Some (process, fs') -> fs' = fs.
Proof.
  induction reports as [|[c out] rest IH]; simpl; [discriminate|].
  case_bool_decide; [|exact IH]. intros E. now inversion E.
Qed.

(** [plain.so] has no RPATH: after the call the disk is what it was and only
    [readelf] has run. *)
Lemma removeSharedLibraryRPATH_without_rpath_witness :
  let h := DemoElf.linux DemoElf.ldconfig_cache in
  let w := DemoElf.disk in
  let w1 := {| files := files w;
               journal := [ToolRun [t "readelf"; t "-d"; t "plain.so"]] |} in
  removeSharedLibraryRPATH h (t "plain.so") w = (Ok tt, w1)
  /\ files w1 = files w.
Proof.
  intros h w w1.
  assert (Hget : getSharedLibraryRPATH h (t "plain.so") w = (Ok None, w1))
    by (vm_compute; reflexivity).
  destruct (removeSharedLibraryRPATH_without_rpath h (t "plain.so") w w1 Hget)
    as (Hremove & _ & Hfiles).
  split; [exact Hremove|].
  apply Hfiles. intros fs process fs'. apply canned_read_only.
Defined.

(** ** The stderr filter of install_name_tool *)

Lemma splitlines_at_clean s after_cr : Forall clean (Py.splitlines_at s after_cr).
Proof.
  revert after_cr. induction s as [|c s IH]; intros after_cr; simpl.
  - constructor.
  - case_bool_decide as HLF.
    { destruct after_cr; [apply IH|]. constructor; [|apply IH].
      split; apply not_elem_of_nil. }
    case_bool_decide as HCR.
    { constructor; [|apply IH]. split; apply not_elem_of_nil. }
    specialize (IH false).
    destruct (Py.splitlines_at s false) as [|p ps].
    + constructor; [|constructor].
      split; rewrite list_elem_of_singleton; congruence.
    + inversion IH as [|? ? [H1 H2] Hps]; subst. constructor; [|assumption].
      split; rewrite elem_of_cons; intros [?|?]; (congruence || contradiction).
Qed.

Lemma splitlines_at_one p :
  p <> [] -> clean p -> Py.splitlines_at p false = [p].
Proof.
  induction p as [|c p IH]; [congruence|]. intros _ [HLF HCR]. simpl.
  rewrite !bool_decide_eq_false_2
    by (intros ->; first [now apply HLF; left | now apply HCR; left]).
  destruct p as [|d p]; [reflexivity|].
  rewrite IH; [reflexivity|discriminate|].
  split; intros Hin; [apply HLF|apply HCR]; now right.
Qed.

Lemma splitlines_at_line p rest :
  clean p ->
  Py.splitlines_at (p ++ Py.LF :: rest) false = p :: Py.splitlines_at rest false.
Proof.
  induction p as [|c p IH]; intros [HLF HCR]; [reflexivity|].
  simpl.
  rewrite !bool_decide_eq_false_2
    by (intros ->; first [now apply HLF; left | now apply HCR; left]).
  rewrite IH; [reflexivity|].
  split; intros Hin; [apply HLF|apply HCR]; now right.
Qed.

(** Joining lines with "\n" and splitting them again is the identity on
    non-empty lines without terminators. *)
Lemma splitlines_join lines :
  Forall (fun l => l <> [] /\ clean l) lines ->
  Py.splitlines (Py.join [Py.LF] lines) = lines.
Proof.
  unfold Py.splitlines.
  induction lines as [|p [|q ps] IH]; intros Hall.
  - reflexivity.
  - inversion Hall as [|? ? [Hne Hclean] _]; subst. simpl.
    now apply splitlines_at_one.
  - inversion Hall as [|? ? [Hne Hclean] Hrest]; subst.
    change (Py.join [Py.LF] (p :: q :: ps))
      with (p ++ Py.LF :: Py.join [Py.LF] (q :: ps)).
    rewrite splitlines_at_line by assumption. now rewrite IH.
Qed.

Lemma join_nil {A} (sep : list A) (lines : list (list A)) :
  Forall (fun l => l <> []) lines -> Py.join sep lines = [] -> lines = [].
Proof.
  destruct lines as [|p [|q ps]]; [reflexivity| |]; intros Hall; simpl;
    inversion Hall; subst.
  - congruence.
  - destruct p; [congruence|discriminate].
Qed.

Lemma filter_kept_nonempty stderr :
  Forall (fun l => l <> [] /\ clean l)
    (List.filter (fun l => negb (benign l)) (Py.splitlines stderr)).
Proof.
  pose proof (splitlines_at_clean stderr false) as Hclean.
  unfold Py.splitlines.
  induction Hclean as [|l ls Hl Hls IH]; simpl; [constructor|].
  destruct (benign l) eqn:Hb; simpl; [assumption|].
  constructor; [|assumption]. split; [|assumption].
  intros ->. discriminate.
Qed.

Lemma _filterInstallNameToolErrorOutput_lines stderr :
  _filterInstallNameToolErrorOutput stderr
  = Py.join [Py.LF] (List.filter (fun l => negb (benign l)) (Py.splitlines stderr)).
Proof.
  unfold _filterInstallNameToolErrorOutput. f_equal.
  apply List.filter_ext. intros l. unfold benign. now rewrite negb_orb.
Qed.

Lemma filter_nil_iff {A} (f : A -> bool) (l : list A) :
  List.filter (fun x => negb (f x)) l = [] <-> Forall (fun x => f x = true) l.
Proof.
  induction l as [|x l IH]; simpl.
  - split; [constructor|reflexivity].
  - destruct (f x) eqn:E; simpl.
    + rewrite IH. split; [now constructor|now inversion 1].
    + split; [discriminate|]. inversion 1; congruence.
Qed.

(** What the filter leaves is empty exactly when every line is benign. *)
Lemma _filterInstallNameToolErrorOutput_nil stderr :
  _filterInstallNameToolErrorOutput stderr = []
  <-> Forall (fun l => benign l = true) (Py.splitlines stderr).
Proof.
  rewrite _filterInstallNameToolErrorOutput_lines, <- filter_nil_iff. split.
  - apply join_nil.
    eapply Forall_impl; [apply filter_kept_nonempty|]. now intros l [? _].
  - now intros ->.
Qed.

(** C8 does not hold as worded: the filter looks for "invalidate the code
    signature", so a line with "invalidates the code signature" stays. *)
Lemma filter_keeps_invalidates_wording :
  let line := b "warning: this change invalidates the code signature" in
  Py.contains line (b "invalidates the code signature") = true
  /\ _filterInstallNameToolErrorOutput line = line
  /\ _filterInstallNameToolErrorOutput line <> [].
Proof. vm_compute. repeat split; discriminate. Qed.

(** C8, amended. The filter keeps, in order, exactly the lines of stderr that
    are neither empty nor contain "invalidate the code signature". For a tool
    that exits with 0, the call succeeds when every line of its stderr is
    empty or carries that warning, and is a failure as soon as one line is
    neither. *)
Theorem install_name_tool_stderr_filter
    (h : Host) (logger : Logger) (command : list text) (message : text)
    (w : World) (process : Completed) (files' : gmap text File) :
  spawn h command (files w) = Some (process, files') ->
  exit_code process = 0 ->
  Py.splitlines (_filterInstallNameToolErrorOutput (stderr process))
  = List.filter (fun l => negb (benign l)) (Py.splitlines (stderr process))
  /\ (Forall (fun l => benign l = true) (Py.splitlines (stderr process)) ->
      executeToolChecked h logger command message
        (Some _filterInstallNameToolErrorOutput) w
      = (Ok (stdout process),
         {| files := files'; journal := journal w ++ [ToolRun command] |}))
  /\ (Exists (fun l => benign l = false) (Py.splitlines (stderr process)) ->
      executeToolChecked h logger command message
        (Some _filterInstallNameToolErrorOutput) w
      = (Raise (ToolFailed command),
         {| files := files'; journal := journal w ++ [ToolRun command] |})).
Proof.
  intros Hspawn Hexit. split; [|split].
  - rewrite _filterInstallNameToolErrorOutput_lines.
    apply splitlines_join, filter_kept_nonempty.
  - intros Hall. unfold executeToolChecked. rewrite Hspawn.
    rewrite bool_decide_eq_false_2 by (intros Hne; now apply Hne).
    apply _filterInstallNameToolErrorOutput_nil in Hall. rewrite Hall.
    now rewrite bool_decide_eq_false_2 by (intros Hne; now apply Hne).
  - intros Hsome. unfold executeToolChecked. rewrite Hspawn.
    rewrite bool_decide_eq_false_2 by (intros Hne; now apply Hne).
    rewrite bool_decide_eq_true_2; [reflexivity|].
    rewrite _filterInstallNameToolErrorOutput_nil. intros Hall.
    apply Exists_exists in Hsome as (l & Hin & Hl).
    rewrite Forall_forall in Hall. specialize (Hall l Hin). congruence.
Qed.

(** On the example macOS machine, deleting the rpath of [app.dylib] prints
    only the code-signature warning and goes through; the complaint printed
    for [bad.dylib] makes the call a failure. *)
Lemma install_name_tool_stderr_filter_witness :
  let h := DemoMachO.macos in
  let w := Demo.empty_world in
  let good := [t "install_name_tool"; t "-delete_rpath"; t "@loader_path/../lib";
               t "app.dylib"] in
  let bad := [t "install_name_tool"; t "-delete_rpath"; t "/nowhere"; t "bad.dylib"] in
  executeToolChecked h postprocessing_logger good (_installnametool_usage)
    (Some _filterInstallNameToolErrorOutput) w
  = (Ok [], {| files := ∅; journal := [ToolRun good] |})
  /\ executeToolChecked h postprocessing_logger bad (_installnametool_usage)
       (Some _filterInstallNameToolErrorOutput) w
     = (Raise (ToolFailed bad), {| files := ∅; journal := [ToolRun bad] |}).
Proof.
  intros h w good bad. split.
  - apply (proj1 (proj2 (install_name_tool_stderr_filter h postprocessing_logger good
                           _installnametool_usage w
                           {| exit_code := 0; stdout := [];
                              stderr := DemoMachO.signature_warning |}
                           ∅ eq_refl eq_refl))).
    vm_compute. repeat constructor.
  - apply (proj2 (proj2 (install_name_tool_stderr_filter h postprocessing_logger bad
                           _installnametool_usage w
                           {| exit_code := 0; stdout := [];
                              stderr := b "install_name_tool: no LC_RPATH load command with path: /nowhere" |}
                           ∅ eq_refl eq_refl))).
    vm_compute. repeat constructor.
Defined.

(** ** locateDLL: the rows of ldconfig -p *)

Lemma slice_from_1 {A} (l : list A) : Py.slice_from l 1 = drop 1 l.
Proof.
  unfold Py.slice_from, Py.slice, Py.clamp.
  destruct l as [|x l]; [reflexivity|].
  replace (Z.of_nat (length (x :: l)) <? 0) with false
    by (symmetry; apply Z.ltb_ge; lia).
  change (1 <? 0) with false. cbv zeta.
  rewrite Z.min_id, Z.min_l by (simpl; lia).
  change (Z.to_nat 1) with 1%nat. simpl drop.
  replace (Z.to_nat (Z.of_nat (length (x :: l)) - 1)) with (length l)
    by (simpl; lia).
  apply firstn_all.
Qed.

Lemma executeToolChecked_clean h logger command message w process files' :
  runs_clean h command w process files' ->
  executeToolChecked h logger command message None w
  = (Ok (stdout process), after_tool command w files').
Proof.
  intros (Hspawn & Hexit & Herr). unfold executeToolChecked.
  rewrite Hspawn, Herr.
  rewrite !bool_decide_eq_false_2 by (intros Hne; now apply Hne).
  reflexivity.
Qed.

Lemma for_each_rows h lines rows m :
  map_result (locateDLL_columns h) lines = Ok rows ->
  for_each (locateDLL_row h) lines m = Ok (fold_left locateDLL_update rows m).
Proof.
  revert rows m. induction lines as [|line lines IH]; intros rows m; simpl.
  - intros E. now inversion E.
  - unfold locateDLL_row at 1.
    destruct (locateDLL_columns h line) as [row|e]; [|discriminate].
    destruct (map_result (locateDLL_columns h) lines) as [rows'|e] eqn:Hrest;
      [|discriminate].
    intros E. inversion E; subst. simpl. now apply IH.
Qed.

Lemma for_each_abort h before bad after rows e m :
  map_result (locateDLL_columns h) before = Ok rows ->
  locateDLL_columns h bad = Raise e ->
  for_each (locateDLL_row h) (before ++ bad :: after) m = Raise e.
Proof.
  revert rows m. induction before as [|line before IH]; intros rows m; simpl.
  - intros _ Hbad. unfold locateDLL_row. now rewrite Hbad.
  - unfold locateDLL_row at 1.
    destruct (locateDLL_columns h line) as [row|e']; [|discriminate].
    destruct (map_result (locateDLL_columns h) before) as [rows'|e'] eqn:Hrest;
      [|discriminate].
    intros _ Hbad. simpl. now apply (IH rows').
Qed.

(** First row wins: a name already in the map keeps its path, a new name
    takes the path of the first row that declares it. *)
Lemma locateDLL_update_lookup (rows : list (text * text)) (m : gmap text text)
    (name : text) :
  fold_left locateDLL_update rows m !! name
  = match m !! name with
    | Some path => Some path
    | None => first_path name rows
    end.
Proof.
  revert m. induction rows as [|[declared path] rows IH]; intros m; simpl.
  - now destruct (m !! name).
  - rewrite IH. unfold locateDLL_update. simpl.
    destruct (m !! declared) eqn:Hdeclared.
    + case_bool_decide; subst; [now rewrite Hdeclared|reflexivity].
    + case_bool_decide; subst.
      * now rewrite lookup_insert_eq, Hdeclared.
      * now rewrite lookup_insert_ne by assumption.
Qed.

Lemma first_path_first (name : text) (before : list (text * text)) path after :
  name ∉ before.*1 ->
  first_path name (before ++ (name, path) :: after) = Some path.
Proof.
  induction before as [|[declared p] before IH]; simpl.
  - intros _. now rewrite bool_decide_eq_true_2.
  - rewrite not_elem_of_cons. intros [Hne Hnot].
    rewrite bool_decide_eq_false_2 by congruence. now apply IH.
Qed.

Lemma locateDLL_ldconfig h dll_name so_name w process files' :
  ldconfig_branch h dll_name so_name ->
  runs_clean h [t "/sbin/ldconfig"; t "-p"] w process files' ->
  locateDLL h dll_name w
  = match for_each (locateDLL_row h) (drop 1 (Py.splitlines (stdout process))) ∅ with
    | Ok dll_map =>
        match dll_map !! so_name with
        | Some path => (Ok (Some path), after_tool [t "/sbin/ldconfig"; t "-p"] w files')
        | None => (Raise (KeyError so_name),
                   after_tool [t "/sbin/ldconfig"; t "-p"] w files')
        end
    | Raise e => (Raise e, after_tool [t "/sbin/ldconfig"; t "-p"] w files')
    end.
Proof.
  intros (Hfind & Hwin & Hos & Hsep & Halpine) Hrun. unfold locateDLL.
  rewrite Hfind, Hwin, (bool_decide_eq_false_2 _ Hos), Hsep, Halpine.
  unfold mbind, M_bind, bind.
  rewrite (executeToolChecked_clean _ _ _ _ _ _ _ Hrun).
  unfold lift. rewrite slice_from_1.
  destruct (for_each _ _ _) as [dll_map|e]; [|reflexivity].
  now destruct (dll_map !! so_name).
Qed.

(** The [ldconfig -p] map is indexed without a default: a resolved bare
    name that no row declares ends in a [KeyError]. *)
Lemma locateDLL_unlisted_is_KeyError h dll_name so_name w process files' rows :
  ldconfig_branch h dll_name so_name ->
  runs_clean h [t "/sbin/ldconfig"; t "-p"] w process files' ->
  map_result (locateDLL_columns h) (drop 1 (Py.splitlines (stdout process))) = Ok rows ->
  so_name ∉ rows.*1 ->
  locateDLL h dll_name w
  = (Raise (KeyError so_name), after_tool [t "/sbin/ldconfig"; t "-p"] w files').
Proof.
  intros Hbranch Hrun Hrows Hout.
  rewrite (locateDLL_ldconfig _ _ _ _ _ _ Hbranch Hrun).
  rewrite (for_each_rows _ _ _ _ Hrows), locateDLL_update_lookup, lookup_empty.
  replace (first_path so_name rows) with (@None text); [reflexivity|].
  clear Hrows. induction rows as [|[declared path] rows IH]; [reflexivity|].
  simpl in *. apply not_elem_of_cons in Hout as [Hne Hout].
  rewrite bool_decide_eq_false_2 by congruence. now apply IH.
Qed.

(** C5. [locateDLL] parses the rows of [ldconfig -p] into a map from declared
    name to path in which every name has the path of the first row declaring
    it: of two rows with the same name and different paths the second is
    ignored, and the resolution of that name yields the first row's path. *)
Theorem locateDLL_first_row_wins
    (h : Host) (dll_name so_name : text) (w : World)
    (process : Completed) (files' : gmap text File) (rows : list (text * text)) :
  ldconfig_branch h dll_name so_name ->
  runs_clean h [t "/sbin/ldconfig"; t "-p"] w process files' ->
  map_result (locateDLL_columns h) (drop 1 (Py.splitlines (stdout process))) = Ok rows ->
  exists dll_map,
    for_each (locateDLL_row h) (drop 1 (Py.splitlines (stdout process))) ∅ = Ok dll_map
    /\ (forall name, dll_map !! name = first_path name rows)
    /\ (forall name before first between second after,
          rows = before ++ (name, first) :: between ++ (name, second) :: after ->
          name ∉ before.*1 ->
          dll_map !! name = Some first)
    /\ (forall before first after,
          rows = before ++ (so_name, first) :: after ->
          so_name ∉ before.*1 ->
          locateDLL h dll_name w
          = (Ok (Some first), after_tool [t "/sbin/ldconfig"; t "-p"] w files')).
Proof.
  intros Hbranch Hrun Hrows.
  exists (fold_left locateDLL_update rows ∅).
  assert (Hlookup : forall name,
            fold_left locateDLL_update rows ∅ !! name = first_path name rows).
  { intros name. rewrite locateDLL_update_lookup. now rewrite lookup_empty. }
  split; [now apply for_each_rows|]. split; [exact Hlookup|]. split.
  - intros name before first between second after -> Hfresh.
    rewrite Hlookup. now apply first_path_first.
  - intros before first after -> Hfresh.
    rewrite (locateDLL_ldconfig _ _ _ _ _ _ Hbranch Hrun).
    rewrite (for_each_rows _ _ _ _ Hrows), Hlookup.
    now rewrite first_path_first.
Qed.

Lemma linux_ldconfig_branch cache :
  ldconfig_branch (DemoElf.linux cache) (t "z") (t "libz.so.1").
Proof. repeat split; try reflexivity. vm_compute. discriminate. Qed.

(** The example cache lists [libz.so.1] twice; the first path is the answer. *)
Lemma locateDLL_first_row_wins_witness :
  locateDLL (DemoElf.linux DemoElf.ldconfig_cache) (t "z") DemoElf.disk
  = (Ok (Some (t "/lib/x86_64-linux-gnu/libz.so.1")),
     after_tool [t "/sbin/ldconfig"; t "-p"] DemoElf.disk (files DemoElf.disk)).
Proof.
  destruct (locateDLL_first_row_wins
              (DemoElf.linux DemoElf.ldconfig_cache) (t "z") (t "libz.so.1")
              DemoElf.disk (Demo.quiet DemoElf.ldconfig_cache)
              (files DemoElf.disk)
              [ (t "libz.so.1", t "/lib/x86_64-linux-gnu/libz.so.1");
                (t "libz.so.1", t "/lib32/libz.so.1");
                (t "libm.so.6", t "/lib/x86_64-linux-gnu/libm.so.6") ]
              (linux_ldconfig_branch _)
              (conj eq_refl (conj eq_refl eq_refl))
              ltac:(vm_compute; reflexivity))
    as (dll_map & _ & _ & _ & Hlocate).
  apply (Hlocate [] _ [ (t "libz.so.1", t "/lib32/libz.so.1");
                        (t "libm.so.6", t "/lib/x86_64-linux-gnu/libm.so.6") ]).
  - reflexivity.
  - apply not_elem_of_nil.
Defined.

(** ** locateDLL: rows that do not have the expected shape *)

(** C10 does not hold as worded: a row without a " => " separator whose
    "=>" stands without blanks passes the first assertion and fails in the
    unpacking of the split, with a [ValueError] and not an assertion failure. *)
Lemma locateDLL_glued_arrow_is_ValueError :
  let row := b "	libz.so.1 (libc6,x86-64)=>/lib/x86_64-linux-gnu/libz.so.1" in
  Py.splitlines DemoElf.ldconfig_glued !! 2%nat = Some row
  /\ Py.count row (b " => ") = 0%nat
  /\ locateDLL (DemoElf.linux DemoElf.ldconfig_glued) (t "z") DemoElf.disk
     = (Raise ValueError,
        after_tool [t "/sbin/ldconfig"; t "-p"] DemoElf.disk (files DemoElf.disk))
  /\ (forall detail w',
        locateDLL (DemoElf.linux DemoElf.ldconfig_glued) (t "z") DemoElf.disk
        <> (Raise (AssertionError detail), w')).
Proof.
  assert (E : locateDLL (DemoElf.linux DemoElf.ldconfig_glued) (t "z")
                DemoElf.disk
              = (Raise ValueError,
                 after_tool [t "/sbin/ldconfig"; t "-p"] DemoElf.disk
                   (files DemoElf.disk)))
    by (vm_compute; reflexivity).
  split; [vm_compute; reflexivity|]. split; [vm_compute; reflexivity|].
  split; [exact E|]. intros detail w'. rewrite E. discriminate.
Qed.

(** C10, amended. [locateDLL] skips the first line of the listing. Every
    later row is checked, none is skipped: when the rows before it are well
    formed, a row that does not contain "=>" exactly once aborts the
    resolution with an assertion failure; a row that does but whose stripped
    text does not split into two columns at " => " aborts it with a
    [ValueError]; a row whose left column lacks " (" aborts it with an
    assertion failure. *)
Theorem locateDLL_malformed_row_aborts
    (h : Host) (dll_name so_name : text) (w : World)
    (process : Completed) (files' : gmap text File)
    (first : bytes) (before : list bytes) (row : bytes) (after : list bytes)
    (rows : list (text * text)) :
  ldconfig_branch h dll_name so_name ->
  runs_clean h [t "/sbin/ldconfig"; t "-p"] w process files' ->
  Py.splitlines (stdout process) = first :: before ++ row :: after ->
  map_result (locateDLL_columns h) before = Ok rows ->
  (Py.count row (b "=>") <> 1%nat ->
   locateDLL h dll_name w
   = (Raise (AssertionError row), after_tool [t "/sbin/ldconfig"; t "-p"] w files'))
  /\ (Py.count row (b "=>") = 1%nat ->
      length (Py.split (Py.strip row) (b " => ")) <> 2%nat ->
      locateDLL h dll_name w
      = (Raise ValueError, after_tool [t "/sbin/ldconfig"; t "-p"] w files'))
  /\ (forall left_ right_,
        Py.count row (b "=>") = 1%nat ->
        Py.split (Py.strip row) (b " => ") = [left_; right_] ->
        Py.contains left_ (b " (") = false ->
        locateDLL h dll_name w
        = (Raise (AssertionError row), after_tool [t "/sbin/ldconfig"; t "-p"] w files')).
Proof.
  intros Hbranch Hrun Hlines Hbefore.
  rewrite (locateDLL_ldconfig _ _ _ _ _ _ Hbranch Hrun), Hlines. simpl drop.
  split; [|split].
  - intros Hcount.
    rewrite (for_each_abort h before row after rows (AssertionError row));
      [reflexivity|assumption|].
    unfold locateDLL_columns. now rewrite (bool_decide_eq_false_2 _ Hcount).
  - intros Hcount Hlen.
    rewrite (for_each_abort h before row after rows ValueError);
      [reflexivity|assumption|].
    unfold locateDLL_columns. rewrite (bool_decide_eq_true_2 _ Hcount). simpl.
    destruct (Py.split (Py.strip row) (b " => ")) as [|l [|r [|x xs]]];
      try reflexivity. now contradict Hlen.
  - intros left_ right_ Hcount Hsplit Hleft.
    rewrite (for_each_abort h before row after rows (AssertionError row));
      [reflexivity|assumption|].
    unfold locateDLL_columns. rewrite (bool_decide_eq_true_2 _ Hcount). simpl.
    now rewrite Hsplit, Hleft.
Qed.

(** The torn listing of the example machine: its second row has no arrow,
    and the resolution of [z] ends in an assertion failure on that row. *)
Lemma locateDLL_malformed_row_aborts_witness :
  locateDLL (DemoElf.linux DemoElf.ldconfig_torn) (t "z") DemoElf.disk
  = (Raise (AssertionError (b "	libz.so.1 (libc6,x86-64)")),
     after_tool [t "/sbin/ldconfig"; t "-p"] DemoElf.disk (files DemoElf.disk)).
Proof.
  apply (proj1 (locateDLL_malformed_row_aborts
                  (DemoElf.linux DemoElf.ldconfig_torn) (t "z") (t "libz.so.1")
                  DemoElf.disk (Demo.quiet DemoElf.ldconfig_torn)
                  (files DemoElf.disk)
                  (b "2 libs found in cache `/etc/ld.so.cache'")
                  [b "	libm.so.6 (libc6,x86-64) => /lib/x86_64-linux-gnu/libm.so.6"]
                  (b "	libz.so.1 (libc6,x86-64)") []
                  [(t "libm.so.6", t "/lib/x86_64-linux-gnu/libm.so.6")]
                  (linux_ldconfig_branch _)
                  (conj eq_refl (conj eq_refl eq_refl))
                  ltac:(vm_compute; reflexivity)
                  ltac:(vm_compute; reflexivity))).
  vm_compute. discriminate.
Defined.

(** ** Searching and slicing *)

Section SeqFacts.
Context {A : Type} `{EqDecision A}.

Lemma startswith_nil (s : list A) : Py.startswith s [] = true.
Proof. now destruct s. Qed.

Lemma startswith_single (s : list A) (x : A) :
  Py.startswith s [x] = match s with
                        | y :: _ => bool_decide (x = y)
                        | [] => false
                        end.
Proof.
  destruct s as [|y s]; simpl; [reflexivity|].
  rewrite startswith_nil. apply andb_true_r.
Qed.

Lemma startswith_app (p s : list A) : Py.startswith (p ++ s) p = true.
Proof.
  induction p as [|x p IH]; simpl; [apply startswith_nil|].
  now rewrite bool_decide_eq_true_2, IH.
Qed.

Lemma find_at_single (pre rest : list A) (x : A) (i : Z) :
  x ∉ pre ->
  Py.find_at (pre ++ x :: rest) [x] i = i + Z.of_nat (length pre).
Proof.
  revert i. induction pre as [|c pre IH]; intros i.
  - intros _. cbn [app Py.find_at]. rewrite startswith_single.
    rewrite bool_decide_eq_true_2 by reflexivity. simpl length. lia.
  - rewrite not_elem_of_cons. intros [Hne Hnot].
    cbn [app Py.find_at]. rewrite startswith_single.
    rewrite bool_decide_eq_false_2 by assumption.
    rewrite IH by assumption. simpl length. lia.
Qed.

Lemma rfind_at_absent (s : list A) (x : A) (i last : Z) :
  x ∉ s -> Py.rfind_at s [x] i last = last.
Proof.
  revert i last. induction s as [|c s IH]; intros i last; [reflexivity|].
  rewrite not_elem_of_cons. intros [Hne Hnot].
  cbn [Py.rfind_at]. rewrite startswith_single.
  rewrite bool_decide_eq_false_2 by assumption. now apply IH.
Qed.

Lemma rfind_at_single (pre post : list A) (x : A) (i last : Z) :
  x ∉ post ->
  Py.rfind_at (pre ++ x :: post) [x] i last = i + Z.of_nat (length pre).
Proof.
  intros Hpost. revert i last. induction pre as [|c pre IH]; intros i last.
  - cbn [app Py.rfind_at]. rewrite startswith_single.
    rewrite bool_decide_eq_true_2 by reflexivity.
    rewrite rfind_at_absent by assumption. simpl. lia.
  - cbn [app Py.rfind_at]. rewrite IH. simpl length. lia.
Qed.

Lemma slice_middle (pre mid post : list A) :
  Py.slice (pre ++ mid ++ post)
    (Z.of_nat (length pre)) (Z.of_nat (length pre + length mid)) = mid.
Proof.
  unfold Py.slice, Py.clamp. rewrite !length_app.
  rewrite !(proj2 (Z.ltb_ge _ 0)) by lia.
  rewrite !Z.min_l by lia.
  rewrite Nat2Z.id.
  replace (Z.to_nat (Z.of_nat (length pre + length mid) - Z.of_nat (length pre)))
    with (length mid) by lia.
  rewrite drop_app_length. apply take_app_length.
Qed.

End SeqFacts.

(** The text between the first "[" and the last "]" of a line. *)
Lemma bracketed_value (pre value post : bytes) :
  "["%byte ∉ pre -> "]"%byte ∉ post ->
  let line := pre ++ b "[" ++ value ++ b "]" ++ post in
  Py.slice line (Py.find line (b "[") + 1) (Py.rfind line (b "]")) = value.
Proof.
  intros Hpre Hpost line. subst line. change (b "[") with ["["%byte].
  change (b "]") with ["]"%byte].
  unfold Py.find, Py.rfind. simpl app.
  rewrite find_at_single by assumption.
  replace (pre ++ "["%byte :: value ++ "]"%byte :: post)
    with ((pre ++ "["%byte :: value) ++ "]"%byte :: post)
    by (now rewrite <- app_assoc).
  rewrite rfind_at_single by assumption.
  replace ((pre ++ "["%byte :: value) ++ "]"%byte :: post)
    with ((pre ++ ["["%byte]) ++ value ++ "]"%byte :: post)
    by (now rewrite <- !app_assoc).
  replace (0 + Z.of_nat (length pre) + 1) with (Z.of_nat (length (pre ++ ["["%byte])))
    by (rewrite length_app; simpl; lia).
  replace (0 + Z.of_nat (length (pre ++ "["%byte :: value)))
    with (Z.of_nat (length (pre ++ ["["%byte]) + length value))
    by (rewrite !length_app; simpl; lia).
  apply slice_middle.
Qed.

(** ** getSharedLibraryRPATH on ELF *)

Lemma _getSharedLibraryRPATHElf_loop_skip h before rest :
  Forall (fun l => tagged l = false) before ->
  _getSharedLibraryRPATHElf_loop h (before ++ rest)
  = _getSharedLibraryRPATHElf_loop h rest.
Proof.
  induction 1 as [|l before Hl _ IH]; [reflexivity|].
  cbn [app _getSharedLibraryRPATHElf_loop].
  unfold tagged in Hl. now rewrite Hl.
Qed.

Lemma getSharedLibraryRPATH_elf_unfold h filename w process files' :
  getOS h <> t "Darwin" ->
  runs_clean h [t "readelf"; t "-d"; filename] w process files' ->
  getSharedLibraryRPATH h filename w
  = (_getSharedLibraryRPATHElf_loop h (Py.split (stdout process) [Py.LF]),
     after_tool [t "readelf"; t "-d"; filename] w files').
Proof.
  intros Hos Hrun. unfold getSharedLibraryRPATH.
  rewrite (bool_decide_eq_false_2 _ Hos).
  unfold _getSharedLibraryRPATHElf, mbind, M_bind, bind.
  now rewrite (executeToolChecked_clean _ _ _ _ _ _ _ Hrun).
Qed.

(** C6. On an ELF host [getSharedLibraryRPATH] runs [readelf -d] and answers
    with the first line of its output that contains RPATH or RUNPATH: the
    result is the text between the brackets of that line, decoded; later
    tagged lines do not count. When no line is tagged the answer is [None]. *)
Theorem getSharedLibraryRPATH_elf_first_tagged_line
    (h : Host) (filename : text) (w : World)
    (process : Completed) (files' : gmap text File) :
  getOS h <> t "Darwin" ->
  runs_clean h [t "readelf"; t "-d"; filename] w process files' ->
  (Forall (fun l => tagged l = false) (Py.split (stdout process) [Py.LF]) ->
   getSharedLibraryRPATH h filename w
   = (Ok None, after_tool [t "readelf"; t "-d"; filename] w files'))
  /\ (forall before line after pre value post,
        Py.split (stdout process) [Py.LF] = before ++ line :: after ->
        Forall (fun l => tagged l = false) before ->
        tagged line = true ->
        line = pre ++ b "[" ++ value ++ b "]" ++ post ->
        "["%byte ∉ pre ->
        "]"%byte ∉ post ->
        getSharedLibraryRPATH h filename w
        = (match decode_result h value with
           | Ok rpath => Ok (Some rpath)
           | Raise e => Raise e
           end,
           after_tool [t "readelf"; t "-d"; filename] w files')).
Proof.
  intros Hos Hrun.
  rewrite (getSharedLibraryRPATH_elf_unfold _ _ _ _ _ Hos Hrun). split.
  - intros Hnone. f_equal.
    rewrite <- (app_nil_r (Py.split _ _)).
    now rewrite _getSharedLibraryRPATHElf_loop_skip.
  - intros before line after pre value post -> Hbefore Htagged -> Hpre Hpost.
    f_equal. rewrite _getSharedLibraryRPATHElf_loop_skip by assumption.
    cbn [_getSharedLibraryRPATHElf_loop].
    unfold tagged in Htagged. rewrite Htagged.
    now rewrite (bracketed_value pre value post Hpre Hpost).
Qed.

(** [tagged.so] has a RUNPATH line and, below it, an RPATH line: the answer
    is the RUNPATH value. [plain.so] has neither. *)
Lemma getSharedLibraryRPATH_elf_first_tagged_line_witness :
  let h := DemoElf.linux DemoElf.ldconfig_cache in
  getSharedLibraryRPATH h (t "tagged.so") DemoElf.disk
  = (Ok (Some (t "$ORIGIN/../lib")),
     after_tool [t "readelf"; t "-d"; t "tagged.so"] DemoElf.disk
       (files DemoElf.disk))
  /\ getSharedLibraryRPATH h (t "plain.so") DemoElf.disk
     = (Ok None,
        after_tool [t "readelf"; t "-d"; t "plain.so"] DemoElf.disk
          (files DemoElf.disk)).
Proof.
  intros h. split.
  - apply (proj2 (getSharedLibraryRPATH_elf_first_tagged_line h (t "tagged.so")
                    DemoElf.disk (Demo.quiet DemoElf.with_runpath)
                    (files DemoElf.disk)
                    ltac:(vm_compute; discriminate)
                    (conj eq_refl (conj eq_refl eq_refl)))
             [ b "";
               b "Dynamic section at offset 0x2d28 contains 28 entries:";
               b "  Tag        Type                         Name/Value";
               b " 0x0000000000000001 (NEEDED)             Shared library: [libc.so.6]" ]
             (b " 0x000000000000001d (RUNPATH)            Library runpath: [$ORIGIN/../lib]")
             [ b " 0x000000000000000f (RPATH)              Library rpath: [/opt/other]";
               b " 0x000000000000000c (INIT)               0x1000";
               b "" ]
             (b " 0x000000000000001d (RUNPATH)            Library runpath: ")
             (b "$ORIGIN/../lib") []).
    + vm_compute. reflexivity.
    + vm_compute. repeat constructor.
    + vm_compute. reflexivity.
    + vm_compute. reflexivity.
    + apply (bool_decide_eq_false_1 _). vm_compute. reflexivity.
    + apply not_elem_of_nil.
  - apply (proj1 (getSharedLibraryRPATH_elf_first_tagged_line h (t "plain.so")
                    DemoElf.disk (Demo.quiet DemoElf.without_rpath)
                    (files DemoElf.disk)
                    ltac:(vm_compute; discriminate)
                    (conj eq_refl (conj eq_refl eq_refl)))).
    vm_compute. repeat constructor.
Defined.

(** ** Stripped lines and their words *)

Lemma lstrip_head s c s' : Py.lstrip s = c :: s' -> Py.isspace c = false.
Proof.
  induction s as [|x s IH]; simpl; [discriminate|].
  destruct (Py.isspace x) eqn:Hx; [exact IH|].
  intros E. inversion E; subst. exact Hx.
Qed.

(** A stripped line does not end in whitespace. *)
Lemma strip_last s c : last (Py.strip s) = Some c -> Py.isspace c = false.
Proof.
  unfold Py.strip, Py.rstrip. rewrite last_reverse.
  destruct (Py.lstrip (reverse (Py.lstrip s))) as [|x l] eqn:E; simpl;
    [discriminate|].
  intros H. inversion H; subst. exact (lstrip_head _ _ _ E).
Qed.

Lemma startswith_inv {A} `{EqDecision A} (s p : list A) :
  Py.startswith s p = true -> exists rest, s = p ++ rest.
Proof.
  revert s. induction p as [|x p IH]; intros s.
  - intros _. now exists s.
  - destruct s as [|y s]; simpl; [discriminate|].
    rewrite andb_true_iff. intros [Hx Hp].
    apply bool_decide_eq_true_1 in Hx. subst y.
    destruct (IH s Hp) as [rest ->]. now exists rest.
Qed.

Lemma split_ws_nonempty s c :
  c ∈ s -> Py.isspace c = false -> Py.split_ws s <> [].
Proof.
  induction s as [|x s IH]; [now rewrite elem_of_nil|].
  rewrite elem_of_cons. intros Hin Hc. simpl.
  destruct (Py.isspace x) eqn:Hx.
  - destruct Hin as [->|Hin]; [congruence|]. now apply IH.
  - destruct s as [|d s]; [discriminate|].
    destruct (Py.isspace d); [discriminate|].
    now destruct (Py.split_ws (d :: s)).
Qed.

Lemma split_ws_cmd rest :
  Py.split_ws (b "cmd " ++ rest) = b "cmd" :: Py.split_ws rest.
Proof. reflexivity. Qed.

(** [line.split()[1]] exists on a stripped line that starts with "cmd ". *)
Lemma cmd_word_exists line :
  Py.startswith (Py.strip line) (b "cmd ") = true ->
  exists c, Py.split_ws (Py.strip line) !! 1%nat = Some c.
Proof.
  intros Hcmd. destruct (startswith_inv _ _ Hcmd) as [rest Hrest].
  assert (Hlast : exists c, last rest = Some c /\ Py.isspace c = false).
  { destruct (last rest) as [c|] eqn:Hl.
    - exists c. split; [reflexivity|]. apply (strip_last line).
      rewrite Hrest, last_app, Hl. reflexivity.
    - apply last_None in Hl. subst rest.
      pose proof (strip_last line " "%byte) as Hsp.
      rewrite Hrest in Hsp. specialize (Hsp eq_refl). discriminate. }
  destruct Hlast as (c & Hl & Hc).
  rewrite Hrest, split_ws_cmd.
  destruct (Py.split_ws rest) as [|word words] eqn:Hw.
  - exfalso. apply (split_ws_nonempty rest c); [|assumption|assumption].
    now apply last_Some_elem_of.
  - now exists word.
Qed.

Lemma cmd_line_is_no_header (line : bytes) :
  Py.startswith line (b "cmd ") = true ->
  Py.startswith line (b "Load command") = false.
Proof.
  intros Hcmd. destruct (startswith_inv _ _ Hcmd) as [rest ->]. reflexivity.
Qed.

(** ** getSharedLibraryRPATH on Mach-O *)

Lemma no_rpath_command_tail line lines :
  no_rpath_command (line :: lines) -> no_rpath_command lines.
Proof. intros Hno i header command Hi HSi. exact (Hno (S i) header command Hi HSi). Qed.

(** Lines in which no LC_RPATH command starts leave the scanner with a
    command type other than LC_RPATH. *)
Lemma _getSharedLibraryRPATHDarwin_loop_prefix h pre :
  forall cmd flag rest,
    cmd <> b "LC_RPATH" ->
    (flag = true -> forall l, head pre = Some l ->
       Py.startswith (Py.strip l) (b "cmd ") = true ->
       Py.split_ws (Py.strip l) !! 1%nat <> Some (b "LC_RPATH")) ->
    no_rpath_command pre ->
    exists cmd',
      cmd' <> b "LC_RPATH"
      /\ _getSharedLibraryRPATHDarwin_loop h cmd flag (pre ++ rest)
         = _getSharedLibraryRPATHDarwin_loop h cmd'
             (match last pre with
              | Some l => Py.startswith (Py.strip l) (b "Load command")
              | None => flag
              end) rest.
Proof.
  induction pre as [|line pre IH]; intros cmd flag rest Hcmd Hflag Hno.
  - exists cmd. split; [assumption|reflexivity].
  - cbn [app _getSharedLibraryRPATHDarwin_loop].
    rewrite (bool_decide_eq_false_2 _ Hcmd). cbn [andb].
    assert (Hnext : exists cmd1,
              cmd1 <> b "LC_RPATH"
              /\ (if flag && Py.startswith (Py.strip line) (b "cmd ")
                  then match Py.split_ws (Py.strip line) !! 1%nat with
                       | Some c => Ok c
                       | None => Raise IndexError
                       end
                  else Ok cmd) = Ok cmd1).
    { destruct flag; cbn [andb]; [|now exists cmd].
      destruct (Py.startswith (Py.strip line) (b "cmd ")) eqn:Hstart;
        [|now exists cmd].
      destruct (cmd_word_exists line Hstart) as [c Hc].
      exists c. rewrite Hc. split; [|reflexivity].
      intros ->. exact (Hflag eq_refl line eq_refl Hstart Hc). }
    destruct Hnext as (cmd1 & Hcmd1 & ->). cbn [mbind Result_bind].
    destruct (IH cmd1 (Py.startswith (Py.strip line) (b "Load command")) rest Hcmd1)
      as (cmd' & Hcmd' & ->).
    + intros Hheader l Hl Hstart.
      apply (Hno 0%nat line l); try assumption; [reflexivity|].
      change ((line :: pre) !! 1%nat) with (pre !! 0%nat).
      now rewrite <- head_lookup.
    + exact (no_rpath_command_tail _ _ Hno).
    + exists cmd'. split; [assumption|].
      rewrite last_cons. now destruct (last pre).
Qed.

(** Inside an LC_RPATH command, lines that are neither a "path " line nor a
    "Load command" header are passed over. *)
Lemma _getSharedLibraryRPATHDarwin_loop_between h between rest :
  Forall (fun l => Py.startswith (Py.strip l) (b "path ") = false
                   /\ Py.startswith (Py.strip l) (b "Load command") = false) between ->
  _getSharedLibraryRPATHDarwin_loop h (b "LC_RPATH") false (between ++ rest)
  = _getSharedLibraryRPATHDarwin_loop h (b "LC_RPATH") false rest.
Proof.
  induction 1 as [|l between [Hpath Hheader] _ IH]; [reflexivity|].
  cbn [app _getSharedLibraryRPATHDarwin_loop].
  rewrite Hpath, andb_false_r. cbn [andb mbind Result_bind].
  now rewrite Hheader.
Qed.

(** The text between "path " and the trailing " (offset ...)". *)
Lemma path_value (value annotation : bytes) :
  "("%byte ∉ annotation ->
  let line := b "path " ++ value ++ b " (" ++ annotation in
  Py.slice line 5 (Py.rfind line (b "(") - 1) = value.
Proof.
  intros Hann line. subst line. change (b "(") with ["("%byte].
  unfold Py.rfind.
  replace (b "path " ++ value ++ b " (" ++ annotation)
    with ((b "path " ++ value ++ b " ") ++ "("%byte :: annotation)
    by (now rewrite <- !app_assoc).
  rewrite rfind_at_single by assumption.
  replace ((b "path " ++ value ++ b " ") ++ "("%byte :: annotation)
    with (b "path " ++ value ++ (b " (" ++ annotation))
    by (now rewrite <- !app_assoc).
  replace (0 + Z.of_nat (length (b "path " ++ value ++ b " ")) - 1)
    with (Z.of_nat (length (b "path ") + length value))
    by (rewrite !length_app; simpl; lia).
  change 5 with (Z.of_nat (length (b "path "))).
  apply slice_middle.
Qed.

Lemma no_rpath_commandb_sound lines :
  no_rpath_commandb lines = true -> no_rpath_command lines.
Proof.
  induction lines as [|l lines IH]; intros Hb i header command Hi HSi.
  - discriminate.
  - destruct lines as [|l' lines]; [destruct i; discriminate|].
    cbn [no_rpath_commandb] in Hb. apply andb_true_iff in Hb as [Hhere Hrest].
    destruct i as [|i].
    + cbn in Hi, HSi. inversion Hi; inversion HSi; subst.
      intros Hheader Hcommand Hword.
      rewrite Hheader, Hcommand, (bool_decide_eq_true_2 _ Hword) in Hhere.
      discriminate.
    + exact (IH Hrest i header command Hi HSi).
Qed.

Lemma getSharedLibraryRPATH_darwin_unfold h filename w process files' :
  getOS h = t "Darwin" ->
  runs_clean h [t "otool"; t "-l"; filename] w process files' ->
  getSharedLibraryRPATH h filename w
  = (_getSharedLibraryRPATHDarwin_loop h [] false (Py.split (stdout process) [Py.LF]),
     after_tool [t "otool"; t "-l"; filename] w files').
Proof.
  intros Hos Hrun. unfold getSharedLibraryRPATH.
  rewrite (bool_decide_eq_true_2 _ Hos).
  unfold _getSharedLibraryRPATHDarwin, mbind, M_bind, bind.
  now rewrite (executeToolChecked_clean _ _ _ _ _ _ _ Hrun).
Qed.

(** C7. On a Mach-O host [getSharedLibraryRPATH] scans the lines of
    [otool -l] with two pieces of state, the flag "the last line was a
    Load command header" and the command type captured from the "cmd " line
    that follows such a header. In the first load command whose captured
    type is LC_RPATH, the first line that starts with "path " gives the
    answer: its text after "path " and before the trailing " (offset ...)"
    annotation, decoded. When the report has no LC_RPATH load command the
    answer is [None]. *)
Theorem getSharedLibraryRPATH_darwin_scanner
    (h : Host) (filename : text) (w : World)
    (process : Completed) (files' : gmap text File) :
  getOS h = t "Darwin" ->
  runs_clean h [t "otool"; t "-l"; filename] w process files' ->
  (no_rpath_command (Py.split (stdout process) [Py.LF]) ->
   getSharedLibraryRPATH h filename w
   = (Ok None, after_tool [t "otool"; t "-l"; filename] w files'))
  /\ (forall before header command between path_line after value annotation,
        Py.split (stdout process) [Py.LF]
        = before ++ header :: command :: between ++ path_line :: after ->
        no_rpath_command (before ++ [header]) ->
        Py.startswith (Py.strip header) (b "Load command") = true ->
        Py.startswith (Py.strip command) (b "cmd ") = true ->
        Py.split_ws (Py.strip command) !! 1%nat = Some (b "LC_RPATH") ->
        Forall (fun l => Py.startswith (Py.strip l) (b "path ") = false
                         /\ Py.startswith (Py.strip l) (b "Load command") = false)
          between ->
        Py.strip path_line = b "path " ++ value ++ b " (" ++ annotation ->
        "("%byte ∉ annotation ->
        getSharedLibraryRPATH h filename w
        = (match decode_result h value with
           | Ok rpath => Ok (Some rpath)
           | Raise e => Raise e
           end,
           after_tool [t "otool"; t "-l"; filename] w files')).
Proof.
  intros Hos Hrun.
  rewrite (getSharedLibraryRPATH_darwin_unfold _ _ _ _ _ Hos Hrun).
  assert (Hinit : [] <> b "LC_RPATH") by discriminate.
  split.
  - intros Hno. f_equal.
    destruct (_getSharedLibraryRPATHDarwin_loop_prefix h
                (Py.split (stdout process) [Py.LF]) [] false [] Hinit)
      as (cmd' & _ & Hscan); [discriminate|assumption|].
    rewrite app_nil_r in Hscan. now rewrite Hscan.
  - intros before header command between path_line after value annotation
      Hlines Hno Hheader Hcommand Hword Hbetween Hpath Hann.
    f_equal. rewrite Hlines.
    replace (before ++ header :: command :: between ++ path_line :: after)
      with ((before ++ [header]) ++ command :: between ++ path_line :: after)
      by (now rewrite <- app_assoc).
    destruct (_getSharedLibraryRPATHDarwin_loop_prefix h (before ++ [header])
                [] false (command :: between ++ path_line :: after) Hinit)
      as (cmd' & Hcmd' & Hscan); [discriminate|assumption|].
    refine (eq_trans Hscan _). clear Hscan.
    rewrite last_snoc, Hheader.
    (* the "cmd " line captures LC_RPATH *)
    cbn [_getSharedLibraryRPATHDarwin_loop].
    rewrite (bool_decide_eq_false_2 _ Hcmd'). cbn [andb].
    rewrite Hcommand, Hword. cbn [mbind Result_bind].
    rewrite (cmd_line_is_no_header _ Hcommand).
    (* the lines up to the "path " line *)
    rewrite _getSharedLibraryRPATHDarwin_loop_between by assumption.
    cbn [_getSharedLibraryRPATHDarwin_loop].
    rewrite Hpath, startswith_app.
    rewrite bool_decide_eq_true_2 by reflexivity. cbn [andb].
    now rewrite (path_value value annotation Hann).
Qed.

(** [app.dylib] has two LC_RPATH commands: the answer is the path of the
    first. [bare.dylib] has none. *)
Lemma getSharedLibraryRPATH_darwin_scanner_witness :
  getSharedLibraryRPATH DemoMachO.macos (t "app.dylib") Demo.empty_world
  = (Ok (Some (t "@loader_path/../lib")),
     after_tool [t "otool"; t "-l"; t "app.dylib"] Demo.empty_world ∅)
  /\ getSharedLibraryRPATH DemoMachO.macos (t "bare.dylib") Demo.empty_world
     = (Ok None,
        after_tool [t "otool"; t "-l"; t "bare.dylib"] Demo.empty_world ∅).
Proof.
  split.
  - apply (proj2 (getSharedLibraryRPATH_darwin_scanner DemoMachO.macos
                    (t "app.dylib") Demo.empty_world
                    (Demo.quiet DemoMachO.load_commands) ∅
                    eq_refl (conj eq_refl (conj eq_refl eq_refl)))
             [ b "app.dylib:";
               b "Load command 0";
               b "      cmd LC_SEGMENT_64";
               b "  cmdsize 72";
               b "  segname __PAGEZERO" ]
             (b "Load command 1")
             (b "          cmd LC_RPATH")
             [ b "      cmdsize 32" ]
             (b "         path @loader_path/../lib (offset 12)")
             [ b "Load command 2";
               b "          cmd LC_RPATH";
               b "      cmdsize 32";
               b "         path /opt/other (offset 12)" ]
             (b "@loader_path/../lib") (b "offset 12)")).
    + vm_compute. reflexivity.
    + apply no_rpath_commandb_sound. vm_compute. reflexivity.
    + vm_compute. reflexivity.
    + vm_compute. reflexivity.
    + vm_compute. reflexivity.
    + vm_compute. repeat constructor.
    + vm_compute. reflexivity.
    + apply (bool_decide_eq_false_1 _). vm_compute. reflexivity.
  - apply (proj1 (getSharedLibraryRPATH_darwin_scanner DemoMachO.macos
                    (t "bare.dylib") Demo.empty_world
                    (Demo.quiet DemoMachO.no_rpath_commands) ∅
                    eq_refl (conj eq_refl (conj eq_refl eq_refl)))).
    apply no_rpath_commandb_sound. vm_compute. reflexivity.
Defined.

(** * Further properties of the module *)

(** ** getWindowsDLLVersion *)

Lemma land_shiftr_field high low :
  word16 high -> word16 low ->
  Z.land (Z.shiftr (version_field high low) 16) 0xFFFF = high
  /\ Z.land (version_field high low) 0xFFFF = low.
Proof.
  unfold word16, version_field. intros Hh Hl.
  change 0xFFFF with (Z.ones 16).
  rewrite !Z.land_ones by lia.
  rewrite Z.shiftr_lor, Z.shiftr_shiftl_l by lia.
  change (16 - 16) with 0. rewrite Z.shiftl_0_r.
  rewrite (Z.shiftr_div_pow2 low) by lia.
  rewrite (Z.div_small low) by (change (2 ^ 16) with 65536; lia).
  rewrite Z.lor_0_r. split.
  - apply Z.mod_small. change (2 ^ 16) with 65536. lia.
  - rewrite <- Z.land_ones, Z.land_lor_distr_l by lia.
    rewrite !Z.land_ones by lia.
    rewrite Z.shiftl_mul_pow2 by lia. rewrite Z.mod_mul by lia.
    rewrite Z.lor_0_l. apply Z.mod_small. change (2 ^ 16) with 65536. lia.
Qed.

(** X1. The version quad is the inverse of the packing of the two DWORD
    fields: when [dwFileVersionMS] holds [major] in its high word and [minor]
    in its low word, and [dwFileVersionLS] holds [build] and [revision] the
    same way, [getWindowsDLLVersion] returns
    [(major, minor, build, revision)]. *)
Theorem getWindowsDLLVersion_unpacks
    (h : Host) (filename : Filename) (res : bytes)
    (file_info : VsFixedFileInfoStructure) (major minor build revision : Z) :
  GetFileVersionInfoSize h filename <> 0 ->
  GetFileVersionInfo h filename (GetFileVersionInfoSize h filename) = Some res ->
  VerQueryValueA h res (b "\\") = Some file_info ->
  dwSignature file_info = 0xFEEF04BD ->
  word16 major -> word16 minor -> word16 build -> word16 revision ->
  dwFileVersionMS file_info = version_field major minor ->
  dwFileVersionLS file_info = version_field build revision ->
  getWindowsDLLVersion h filename = Ok (major, minor, build, revision).
Proof.
  intros Hsize Hload Hquery Hsig Hmajor Hminor Hbuild Hrevision Hms Hls.
  unfold getWindowsDLLVersion.
  rewrite bool_decide_eq_false_2 by assumption. rewrite Hload, Hquery.
  rewrite (bool_decide_eq_true_2 _ Hsig). cbn [negb]. rewrite Hms, Hls.
  destruct (land_shiftr_field major minor Hmajor Hminor) as [-> ->].
  destruct (land_shiftr_field build revision Hbuild Hrevision) as [-> ->].
  reflexivity.
Qed.

Lemma getWindowsDLLVersion_unpacks_witness :
  getWindowsDLLVersion
    (Demo.windows 52 (Some {| dwSignature := 0xFEEF04BD;
                              dwFileVersionMS := version_field 3 9;
                              dwFileVersionLS := version_field 13 65535 |}))
    (BytesName (b "python39.dll"))
  = Ok (3, 9, 13, 65535).
Proof.
  apply (getWindowsDLLVersion_unpacks _ _ (repeat "000"%byte 52)
           {| dwSignature := 0xFEEF04BD;
              dwFileVersionMS := version_field 3 9;
              dwFileVersionLS := version_field 13 65535 |});
    try reflexivity; try discriminate; unfold word16; lia.
Defined.

(** X2. Whatever the version API hands back, every component of a version
    [getWindowsDLLVersion] returns is an unsigned 16-bit number. *)
Theorem getWindowsDLLVersion_components_are_words
    (h : Host) (filename : Filename) (major minor build revision : Z) :
  getWindowsDLLVersion h filename = Ok (major, minor, build, revision) ->
  word16 major /\ word16 minor /\ word16 build /\ word16 revision.
Proof.
  intros Hok. pose proof (getWindowsDLLVersion_range _ _ _ _ _ _ Hok) as Hall.
  inversion Hall as [|? ? H1 Hall1]; subst.
  inversion Hall1 as [|? ? H2 Hall2]; subst.
  inversion Hall2 as [|? ? H3 Hall3]; subst.
  inversion Hall3 as [|? ? H4 _]; subst.
  now unfold word16.
Qed.

Lemma getWindowsDLLVersion_components_are_words_witness :
  word16 0x1234 /\ word16 0x5678 /\ word16 0x9ABC /\ word16 0xDEF0.
Proof.
  apply (getWindowsDLLVersion_components_are_words
           (Demo.windows 52 (Some {| dwSignature := 0xFEEF04BD;
                                     dwFileVersionMS := 0x12345678;
                                     dwFileVersionLS := 0x9ABCDEF0 |}))
           (UnicodeName (t "some.dll"))).
  reflexivity.
Defined.

(** X3. The only exception [getWindowsDLLVersion] raises is the failure of
    [assert success]: it raises exactly when the size query is non-zero and
    loading the version block fails. *)
Theorem getWindowsDLLVersion_raises_iff (h : Host) (filename : Filename) (e : Exception) :
  getWindowsDLLVersion h filename = Raise e
  <-> e = AssertionError []
      /\ GetFileVersionInfoSize h filename <> 0
      /\ GetFileVersionInfo h filename (GetFileVersionInfoSize h filename) = None.
Proof.
  unfold getWindowsDLLVersion. split.
  - case_bool_decide as Hsize; [discriminate|].
    destruct (GetFileVersionInfo h filename _) as [res|].
    + destruct (VerQueryValueA h res _) as [file_info|]; [|discriminate].
      destruct (negb _); discriminate.
    + intros E. inversion E. auto.
  - intros (-> & Hsize & Hload).
    rewrite bool_decide_eq_false_2 by assumption. now rewrite Hload.
Qed.

Lemma getWindowsDLLVersion_raises_iff_witness :
  getWindowsDLLVersion DemoMore.windows_no_version_block (UnicodeName (t "some.dll"))
  = Raise (AssertionError []).
Proof.
  apply (proj2 (getWindowsDLLVersion_raises_iff
                  DemoMore.windows_no_version_block (UnicodeName (t "some.dll"))
                  (AssertionError []))).
  split; [reflexivity|]. split; [discriminate|reflexivity].
Defined.

(** ** getPEFileInformation *)

Lemma map_result_Forall2 {A B} (f : A -> Result B) l xs :
  map_result f l = Ok xs -> Forall2 (fun a x => f a = Ok x) l xs.
Proof.
  revert xs. induction l as [|a l IH]; intros xs; simpl.
  - intros E. inversion E. constructor.
  - destruct (f a) as [x|] eqn:Ha; [|discriminate].
    destruct (map_result f l) as [xs'|]; [|discriminate].
    intros E. inversion E; subst. constructor; [assumption|now apply IH].
Qed.

Lemma map_result_raise {A B} (f : A -> Result B) l e :
  (forall a e', f a = Raise e' -> e' = e) ->
  Exists (fun a => f a = Raise e) l ->
  map_result f l = Raise e.
Proof.
  intros Honly. induction 1 as [a l Ha|a l _ IH]; simpl.
  - now rewrite Ha.
  - destruct (f a) as [x|e'] eqn:Ha.
    + now rewrite IH.
    + now rewrite (Honly _ _ Ha).
Qed.

Lemma getPEFileInformation_ok h filename w extracted w' :
  getPEFileInformation h filename w = (Ok extracted, w') ->
  exists pe,
    pefile_PE h filename (files w) = Ok pe
    /\ imported_dlls h pe = Ok (DLLs extracted)
    /\ pe_type2arch h !! PE_TYPE pe = Some (AMD64 extracted)
    /\ w' = if negb (bool_decide (AMD64 extracted
                                   = bool_decide (getArchitecture h = t "x86_64")))
            then {| files := files w;
                    journal := journal w ++
                      [LogWarning postprocessing_logger
                         (t "Python "
                          ++ (if bool_decide (getArchitecture h = t "x86_64")
                              then t "32" else t "64")
                          ++ t " bits with "
                          ++ (if AMD64 extracted then t "64" else t "32")
                          ++ t " bits dependencies in '" ++ filename ++ t "'")] |}
            else w.
Proof.
  destruct (pefile_PE h filename (files w)) as [pe|e] eqn:Hpe.
  - destruct (imported_dlls h pe) as [dlls|e] eqn:Hdlls.
    + rewrite (getPEFileInformation_unfold h filename w pe dlls Hpe Hdlls).
      destruct (pe_type2arch h !! PE_TYPE pe) as [amd64|] eqn:Harch; [|discriminate].
      intros E. inversion E; subst. simpl. now exists pe.
    + unfold getPEFileInformation, mbind, M_bind, bind, lift.
      rewrite Hpe, Hdlls. discriminate.
  - unfold getPEFileInformation, mbind, M_bind, bind. rewrite Hpe. discriminate.
Qed.

(** X4. The list [DLLs] that [getPEFileInformation] returns has one name per
    entry of the import directory, in the order of the file and with
    duplicates kept: each is the decoded [dll] name of the entry at the same
    position. The call leaves every file as it was. *)
Theorem getPEFileInformation_imports_in_order
    (h : Host) (filename : text) (w w' : World) (pe : PE) (extracted : Extracted) :
  pefile_PE h filename (files w) = Ok pe ->
  getPEFileInformation h filename w = (Ok extracted, w') ->
  Forall2 (fun imported_module name => decode_default h (dll imported_module) = Ok name)
    (default [] (DIRECTORY_ENTRY_IMPORT pe)) (DLLs extracted)
  /\ length (DLLs extracted) = length (default [] (DIRECTORY_ENTRY_IMPORT pe))
  /\ files w' = files w.
Proof.
  intros Hpe Hok.
  destruct (getPEFileInformation_ok _ _ _ _ _ Hok) as (pe' & Hpe' & Hdlls & _ & ->).
  rewrite Hpe in Hpe'. inversion Hpe'; subst pe'.
  pose proof (map_result_Forall2 _ _ _ Hdlls) as Hall.
  split; [exact Hall|]. split.
  - symmetry. exact (Forall2_length _ _ _ Hall).
  - now destruct (negb _).
Qed.

Lemma getPEFileInformation_imports_in_order_witness :
  let h := DemoMore.windows_two_imports in
  let extracted := {| DLLs := [t "KERNEL32.dll"; t "USER32.dll"; t "KERNEL32.dll"];
                      AMD64 := true |} in
  getPEFileInformation h (t "a64.dll") Demo.empty_world = (Ok extracted, Demo.empty_world)
  /\ length (DLLs extracted) = 3%nat.
Proof.
  intros h extracted.
  assert (Hok : getPEFileInformation h (t "a64.dll") Demo.empty_world
                = (Ok extracted, Demo.empty_world)) by (vm_compute; reflexivity).
  split; [exact Hok|].
  exact (proj1 (proj2 (getPEFileInformation_imports_in_order h (t "a64.dll")
                         Demo.empty_world Demo.empty_world _ extracted eq_refl Hok))).
Defined.

(** X5. An architecture mismatch is a warning, not an error: when the flag
    [AMD64] of the result equals the bitness of the running Python the world
    is untouched; when it differs, exactly one warning goes to the
    post-processing logger and nothing else happens. As the message is
    built, the width it names for Python is the one it names for the
    dependencies. *)
Theorem getPEFileInformation_mismatch_warns
    (h : Host) (filename : text) (w w' : World) (extracted : Extracted) :
  getPEFileInformation h filename w = (Ok extracted, w') ->
  (AMD64 extracted = bool_decide (getArchitecture h = t "x86_64") -> w' = w)
  /\ (AMD64 extracted <> bool_decide (getArchitecture h = t "x86_64") ->
      w' = {| files := files w;
              journal := journal w ++
                [LogWarning postprocessing_logger
                   (t "Python " ++ (if AMD64 extracted then t "64" else t "32")
                    ++ t " bits with " ++ (if AMD64 extracted then t "64" else t "32")
                    ++ t " bits dependencies in '" ++ filename ++ t "'")] |}).
Proof.
  intros Hok.
  destruct (getPEFileInformation_ok _ _ _ _ _ Hok) as (pe & _ & _ & _ & ->).
  split.
  - intros E. now rewrite (bool_decide_eq_true_2 _ E).
  - intros N. rewrite (bool_decide_eq_false_2 _ N). cbn [negb].
    destruct (AMD64 extracted), (bool_decide (getArchitecture h = t "x86_64"));
      try reflexivity; now contradict N.
Qed.

Lemma getPEFileInformation_mismatch_warns_witness :
  (getPEFileInformation DemoMore.windows_two_imports (t "a32.dll") Demo.empty_world).2
  = {| files := ∅;
       journal := [LogWarning postprocessing_logger
                     (t "Python 32 bits with 32 bits dependencies in 'a32.dll'")] |}.
Proof.
  apply (proj2 (getPEFileInformation_mismatch_warns DemoMore.windows_two_imports
                  (t "a32.dll") Demo.empty_world _
                  {| DLLs := [t "KERNEL32.dll"; t "USER32.dll"; t "KERNEL32.dll"];
                     AMD64 := false |}
                  ltac:(vm_compute; reflexivity))).
  discriminate.
Defined.

(** X6. The import names are decoded before the architecture is looked at:
    when one of them does not decode, [getPEFileInformation] raises
    [UnicodeDecodeError] whatever the optional-header magic, and logs
    nothing. *)
Theorem getPEFileInformation_undecodable_import
    (h : Host) (filename : text) (w : World) (pe : PE) :
  pefile_PE h filename (files w) = Ok pe ->
  Exists (fun imported_module =>
            codec_decode h (if py3 h then t "utf-8" else t "ascii")
              (dll imported_module) = None)
    (default [] (DIRECTORY_ENTRY_IMPORT pe)) ->
  getPEFileInformation h filename w = (Raise UnicodeDecodeError, w).
Proof.
  intros Hpe Hbad.
  unfold getPEFileInformation, mbind, M_bind, bind, lift. rewrite Hpe.
  unfold imported_dlls.
  rewrite (map_result_raise _ _ UnicodeDecodeError); [reflexivity| |].
  - intros m e'. unfold decode_default, decode.
    destruct (codec_decode h _ _); [discriminate|]. now inversion 1.
  - eapply Exists_impl; [exact Hbad|]. intros m Hm.
    unfold decode_default, decode. now rewrite Hm.
Qed.

Lemma getPEFileInformation_undecodable_import_witness :
  getPEFileInformation DemoMore.windows_unreadable (t "cafe.exe") Demo.empty_world
  = (Raise UnicodeDecodeError, Demo.empty_world).
Proof.
  apply (getPEFileInformation_undecodable_import DemoMore.windows_unreadable
           (t "cafe.exe") Demo.empty_world
           {| PE_TYPE := 0x20b;
              DIRECTORY_ENTRY_IMPORT :=
                Some [ {| dll := b "KERNEL32.dll" |};
                       {| dll := b "caf" ++ ["233"%byte] ++ b ".dll" |} ] |}
           eq_refl).
  apply Exists_cons_tl, Exists_cons_hd. reflexivity.
Defined.

(** ** locateDLLFromFilesystem and locateDLL *)

Lemma locateDLLFromFilesystem_walk_app h (name : text) entries1 entries2 :
  locateDLLFromFilesystem_walk h name (entries1 ++ entries2)
  = match locateDLLFromFilesystem_walk h name entries1 with
    | Some found => Some found
    | None => locateDLLFromFilesystem_walk h name entries2
    end.
Proof.
  induction entries1 as [|[[root dirs] fs] entries1 IH]; [reflexivity|].
  simpl. now destruct (bool_decide (name ∈ fs)).
Qed.

Lemma locateDLLFromFilesystem_concat h (name : text) paths :
  locateDLLFromFilesystem h name paths
  = locateDLLFromFilesystem_walk h name (concat (map (os_walk h) paths)).
Proof.
  induction paths as [|path paths IH]; [reflexivity|].
  simpl. rewrite locateDLLFromFilesystem_walk_app, IH. reflexivity.
Qed.

Lemma locateDLLFromFilesystem_walk_None h (name : text) entries :
  locateDLLFromFilesystem_walk h name entries = None ->
  Forall (fun entry => name ∉ entry.2) entries.
Proof.
  induction entries as [|[[root dirs] fs] entries IH]; [constructor|].
  simpl. case_bool_decide as Hin; [discriminate|].
  intros Hrest. constructor; [exact Hin|now apply IH].
Qed.

(** X7. [locateDLLFromFilesystem] searches the directories in the order
    given and each one in walk order, as one sequence: the answer is the
    first walked directory that lists the name, joined with the name, and
    [None] exactly when no walked directory lists it. *)
Theorem locateDLLFromFilesystem_first_match (h : Host) (name : text) (paths : list text) :
  (locateDLLFromFilesystem h name paths = None
   <-> Forall (fun entry => name ∉ entry.2) (concat (map (os_walk h) paths)))
  /\ (forall before root dirs fs after,
        concat (map (os_walk h) paths) = before ++ (root, dirs, fs) :: after ->
        Forall (fun entry => name ∉ entry.2) before ->
        name ∈ fs ->
        locateDLLFromFilesystem h name paths = Some (os_path_join h root name)).
Proof.
  rewrite locateDLLFromFilesystem_concat. split; [split|].
  - apply locateDLLFromFilesystem_walk_None.
  - apply locateDLLFromFilesystem_walk_absent.
  - intros before root dirs fs after -> Hbefore Hin.
    rewrite locateDLLFromFilesystem_walk_app.
    rewrite (locateDLLFromFilesystem_walk_absent h name before Hbefore).
    simpl. now rewrite (bool_decide_eq_true_2 _ Hin).
Qed.

(** On the Alpine example machine [libz.so.1] is under [/lib/apk] and in
    [/usr/lib]: the one under [/lib] is found. *)
Lemma locateDLLFromFilesystem_first_match_witness :
  locateDLLFromFilesystem DemoMore.alpine (t "libz.so.1")
    [t "/lib"; t "/usr/lib"; t "/usr/local/lib"]
  = Some (t "/lib/apk/libz.so.1").
Proof.
  apply (proj2 (locateDLLFromFilesystem_first_match DemoMore.alpine (t "libz.so.1")
                  [t "/lib"; t "/usr/lib"; t "/usr/local/lib"])
           [ (t "/lib", [t "apk"], [t "libc.musl-x86_64.so.1"]) ]
           (t "/lib/apk") [] [t "libz.so.1"]
           [ (t "/usr/lib", [], [t "libz.so.1"; t "libssl.so.3"]) ]).
  - reflexivity.
  - constructor; [|constructor]. apply (bool_decide_eq_false_1 _). reflexivity.
  - apply (bool_decide_eq_true_1 _). reflexivity.
Defined.



(** X9. The map built from [ldconfig -p] is indexed without a default: when
    the loader resolves the name to a bare name that no row of the listing
    declares, [locateDLL] does not return [None] but fails with a
    [KeyError] on that name, after the tool has run. *)
Theorem locateDLL_undeclared_name_raises_KeyError
    (h : Host) (dll_name so_name : text) (w : World)
    (process : Completed) (files' : gmap text File) (rows : list (text * text)) :
  ldconfig_branch h dll_name so_name ->
  runs_clean h [t "/sbin/ldconfig"; t "-p"] w process files' ->
  map_result (locateDLL_columns h) (drop 1 (Py.splitlines (stdout process))) = Ok rows ->
  so_name ∉ rows.*1 ->
  locateDLL h dll_name w
  = (Raise (KeyError so_name), after_tool [t "/sbin/ldconfig"; t "-p"] w files').
Proof.
  intros Hbranch Hrun Hrows Hout.
  rewrite (locateDLL_ldconfig _ _ _ _ _ _ Hbranch Hrun).
  rewrite (for_each_rows _ _ _ _ Hrows), locateDLL_update_lookup, lookup_empty.
  destruct (first_path so_name rows) as [path|] eqn:Hfirst; [|reflexivity].
  exfalso. apply Hout. apply list_elem_of_fmap.
  exists (so_name, path). split; [reflexivity|].
  clear Hrows Hout. induction rows as [|[declared p] rows IH]; [discriminate|].
  simpl in Hfirst. case_bool_decide as Hname.
  - inversion Hfirst; subst. left.
  - right. now apply IH.
Qed.

(** The listing of the example machine without [libz.so.1]: the name the
    loader resolved is not declared, and the lookup in the map fails. *)
Lemma locateDLL_undeclared_name_raises_KeyError_witness :
  locateDLL (DemoElf.linux DemoMore.ldconfig_without_z) (t "z") DemoElf.disk
  = (Raise (KeyError (t "libz.so.1")),
     after_tool [t "/sbin/ldconfig"; t "-p"] DemoElf.disk (files DemoElf.disk)).
Proof.
  apply (locateDLL_undeclared_name_raises_KeyError
           (DemoElf.linux DemoMore.ldconfig_without_z) (t "z") (t "libz.so.1")
           DemoElf.disk (Demo.quiet DemoMore.ldconfig_without_z) (files DemoElf.disk)
           [(t "libm.so.6", t "/lib/x86_64-linux-gnu/libm.so.6")]
           (linux_ldconfig_branch _) (conj eq_refl (conj eq_refl eq_refl))).
  - vm_compute. reflexivity.
  - apply (bool_decide_eq_false_1 _). vm_compute. reflexivity.
Defined.

Lemma first_path_elem (name : text) (rows : list (text * text)) path :
  first_path name rows = Some path -> (name, path) ∈ rows.
Proof.
  induction rows as [|[declared p] rows IH]; simpl; [discriminate|].
  case_bool_decide as Hname.
  - intros E. inversion E; subst. left.
  - intros E. right. now apply IH.
Qed.

(** X10. [locateDLL] invents no path: what it returns from the
    [ldconfig -p] branch is the path column of a row that declares the
    resolved name, and it never returns [None] there. *)
Theorem locateDLL_answer_is_listed
    (h : Host) (dll_name so_name : text) (w w' : World)
    (process : Completed) (files' : gmap text File) (rows : list (text * text))
    (result : option text) :
  ldconfig_branch h dll_name so_name ->
  runs_clean h [t "/sbin/ldconfig"; t "-p"] w process files' ->
  map_result (locateDLL_columns h) (drop 1 (Py.splitlines (stdout process))) = Ok rows ->
  locateDLL h dll_name w = (Ok result, w') ->
  exists path, result = Some path /\ (so_name, path) ∈ rows.
Proof.
  intros Hbranch Hrun Hrows.
  rewrite (locateDLL_ldconfig _ _ _ _ _ _ Hbranch Hrun).
  rewrite (for_each_rows _ _ _ _ Hrows), locateDLL_update_lookup, lookup_empty.
  destruct (first_path so_name rows) as [path|] eqn:Hfirst; [|discriminate].
  intros E. inversion E; subst. exists path. split; [reflexivity|].
  now apply first_path_elem.
Qed.

Lemma locateDLL_answer_is_listed_witness :
  exists path,
    Some (t "/lib/x86_64-linux-gnu/libz.so.1") = Some path
    /\ (t "libz.so.1", path)
       ∈ [ (t "libz.so.1", t "/lib/x86_64-linux-gnu/libz.so.1");
           (t "libz.so.1", t "/lib32/libz.so.1");
           (t "libm.so.6", t "/lib/x86_64-linux-gnu/libm.so.6") ].
Proof.
  apply (locateDLL_answer_is_listed
           (DemoElf.linux DemoElf.ldconfig_cache) (t "z") (t "libz.so.1")
           DemoElf.disk
           (after_tool [t "/sbin/ldconfig"; t "-p"] DemoElf.disk (files DemoElf.disk))
           (Demo.quiet DemoElf.ldconfig_cache) (files DemoElf.disk) _ _
           (linux_ldconfig_branch _) (conj eq_refl (conj eq_refl eq_refl))).
  - vm_compute. reflexivity.
  - vm_compute. reflexivity.
Defined.

(** ** Counting, splitting and stripping around one separator *)

Section SeparatorFacts.
Context {A : Type} `{EqDecision A}.

Lemma startswith_head_ne (s sub' : list A) (x c : A) :
  x <> c -> Py.startswith (c :: s) (x :: sub') = false.
Proof. intros Hne. simpl. now rewrite bool_decide_eq_false_2. Qed.

(** An occurrence of [a :: x :: _] needs an [x] at its second position. *)
Lemma startswith_second_absent (s sub' : list A) (a x c : A) :
  x ∉ s -> Py.startswith (c :: s) (a :: x :: sub') = false.
Proof.
  intros Hx. simpl. destruct s as [|d s]; [apply andb_false_r|].
  apply not_elem_of_cons in Hx as [Hne _]. simpl.
  rewrite (bool_decide_eq_false_2 (x = d)) by assumption.
  apply andb_false_r.
Qed.

Lemma count_at_absent (s sub' : list A) (x : A) (skip : nat) :
  x ∉ s -> Py.count_at s (x :: sub') skip = 0%nat.
Proof.
  revert skip. induction s as [|c s IH]; intros skip Hx.
  - now destruct skip.
  - apply not_elem_of_cons in Hx as [Hne Hx]. cbn [Py.count_at].
    destruct skip as [|skip]; [|now apply IH].
    rewrite startswith_head_ne by assumption. now apply IH.
Qed.

(** One occurrence of a two-element separator whose first element appears
    nowhere else. *)
Lemma count_once (pre post : list A) (x y : A) :
  x ∉ pre -> x ∉ post ->
  Py.count (pre ++ x :: y :: post) [x; y] = 1%nat.
Proof.
  unfold Py.count. intros Hpre Hpost.
  induction pre as [|c pre IH].
  - cbn [app Py.count_at]. simpl Py.startswith.
    rewrite !bool_decide_eq_true_2 by reflexivity.
    rewrite startswith_nil. cbn [andb length Nat.sub].
    now rewrite count_at_absent.
  - apply not_elem_of_cons in Hpre as [Hne Hpre].
    cbn [app Py.count_at]. rewrite startswith_head_ne by assumption.
    now apply IH.
Qed.

Lemma split_at_none (post sep' : list A) (a x : A) :
  x ∉ post -> Py.split_at post (a :: x :: sep') 0 = [post].
Proof.
  induction post as [|c post IH]; [reflexivity|].
  intros Hx. apply not_elem_of_cons in Hx as [Hne Hx].
  cbn [Py.split_at]. rewrite startswith_second_absent by assumption.
  now rewrite IH.
Qed.

Lemma split_at_skip (u post sep : list A) :
  Py.split_at (u ++ post) sep (length u) = Py.split_at post sep 0.
Proof. induction u as [|c u IH]; [reflexivity|exact IH]. Qed.

(** Splitting at a separator [a :: x :: _] whose second element appears in
    neither column gives the two columns. *)
Lemma split_once (left_ post sep' : list A) (a x : A) :
  a <> x -> x ∉ left_ -> x ∉ post ->
  Py.split (left_ ++ (a :: x :: sep') ++ post) (a :: x :: sep') = [left_; post].
Proof.
  unfold Py.split. intros Hax Hleft Hpost.
  induction left_ as [|c left_ IH].
  - cbn [app Py.split_at].
    change (a :: x :: sep' ++ post) with ((a :: x :: sep') ++ post).
    rewrite startswith_app. cbn [length Nat.sub].
    rewrite split_at_skip. now rewrite split_at_none.
  - apply not_elem_of_cons in Hleft as [Hne Hleft].
    change ((c :: left_) ++ (a :: x :: sep') ++ post)
      with (c :: (left_ ++ (a :: x :: sep') ++ post)).
    cbn [Py.split_at].
    assert (Hno : Py.startswith (c :: left_ ++ (a :: x :: sep') ++ post)
                    (a :: x :: sep') = false).
    { simpl. destruct left_ as [|d left_]; simpl.
      - rewrite (bool_decide_eq_false_2 (x = a)) by congruence.
        apply andb_false_r.
      - apply not_elem_of_cons in Hleft as [Hd _].
        rewrite (bool_decide_eq_false_2 (x = d)) by assumption.
        apply andb_false_r. }
    rewrite Hno. now rewrite IH.
Qed.

Lemma contains_startswith (s sub : list A) :
  Py.startswith s sub = true -> Py.contains s sub = true.
Proof. intros Hs. destruct s; cbn [Py.contains]; now rewrite Hs. Qed.

Lemma contains_app (pre sub post : list A) :
  Py.contains (pre ++ sub ++ post) sub = true.
Proof.
  induction pre as [|c pre IH].
  - change ([] ++ sub ++ post) with (sub ++ post).
    apply contains_startswith, startswith_app.
  - cbn [app Py.contains]. rewrite IH. apply orb_true_r.
Qed.

Lemma rfind_at_cons (c : A) (s sub : list A) (i last : Z) :
  Py.rfind_at (c :: s) sub i last
  = Py.rfind_at s sub (i + 1) (if Py.startswith (c :: s) sub then i else last).
Proof. reflexivity. Qed.

Lemma rfind_at_absent2 (s : list A) (a y : A) (i last : Z) :
  y ∉ tail s -> Py.rfind_at s [a; y] i last = last.
Proof.
  revert i last. induction s as [|c s IH]; intros i last Hy; [reflexivity|].
  simpl tail in Hy. rewrite rfind_at_cons.
  rewrite startswith_second_absent by assumption.
  apply IH. destruct s as [|d s]; [apply not_elem_of_nil|].
  simpl. now apply not_elem_of_cons in Hy as [_ Hy].
Qed.

(** The last occurrence of [[a; y]] when no [y] follows it. *)
Lemma rfind_at_last2 (pre post : list A) (a y : A) (i last : Z) :
  y ∉ post ->
  Py.rfind_at (pre ++ a :: y :: post) [a; y] i last = i + Z.of_nat (length pre).
Proof.
  intros Hpost. revert i last. induction pre as [|c pre IH]; intros i last.
  - cbn [app]. rewrite rfind_at_cons.
    change (a :: y :: post) with ([a; y] ++ post). rewrite startswith_app.
    cbn [app]. rewrite rfind_at_absent2 by assumption. simpl. lia.
  - cbn [app]. rewrite rfind_at_cons, IH. simpl length. lia.
Qed.

Lemma slice_prefix (s rest : list A) :
  Py.slice (s ++ rest) 0 (Z.of_nat (length s)) = s.
Proof. exact (slice_middle [] s rest). Qed.

End SeparatorFacts.

Lemma lstrip_indent indent c body :
  Forall (fun x => Py.isspace x = true) indent ->
  Py.isspace c = false ->
  Py.lstrip (indent ++ c :: body) = c :: body.
Proof.
  intros Hindent Hc. induction Hindent as [|x indent Hx _ IH]; simpl.
  - now rewrite Hc.
  - now rewrite Hx.
Qed.

Lemma rstrip_id s c :
  last s = Some c -> Py.isspace c = false -> Py.rstrip s = s.
Proof.
  intros Hlast Hc. apply last_Some in Hlast as [s' ->].
  unfold Py.rstrip. rewrite reverse_snoc. simpl. rewrite Hc.
  now rewrite <- reverse_snoc, reverse_involutive.
Qed.

(** ** locateDLL: a well-formed row *)

Lemma space_is_no_equals_sign indent :
  Forall (fun x => Py.isspace x = true) indent -> "="%byte ∉ indent.
Proof.
  intros Hall Hin. rewrite Forall_forall in Hall.
  specialize (Hall _ Hin). discriminate.
Qed.

Lemma locateDLL_columns_split h line left_ right_ :
  Py.count line (b "=>") = 1%nat ->
  Py.split (Py.strip line) (b " => ") = [left_; right_] ->
  Py.contains left_ (b " (") = true ->
  locateDLL_columns h line
  = (declared ← native h (getfilesystemencoding h)
                  (Py.slice left_ 0 (Py.rfind left_ (b " (")));
     resolved ← native h (getfilesystemencoding h) right_;
     Ok (declared, resolved)).
Proof.
  intros Hcount Hsplit Hleft. unfold locateDLL_columns, native.
  rewrite (bool_decide_eq_true_2 _ Hcount). cbn [negb].
  now rewrite Hsplit, Hleft.
Qed.

Lemma locateDLL_columns_row_parsed
    (h : Host) (indent name flags path : bytes) (first_ last_ : byte) :
  Forall (fun x => Py.isspace x = true) indent ->
  head name = Some first_ -> Py.isspace first_ = false ->
  last path = Some last_ -> Py.isspace last_ = false ->
  "="%byte ∉ name -> "="%byte ∉ flags -> "="%byte ∉ path ->
  "("%byte ∉ flags ->
  locateDLL_columns h (ldconfig_row indent name flags path)
  = (declared ← native h (getfilesystemencoding h) name;
     resolved ← native h (getfilesystemencoding h) path;
     Ok (declared, resolved)).
Proof.
  intros Hindent Hfirst Hspace1 Hlast Hspace2 Hname Hflags Hpath Hparen.
  destruct name as [|c name']; [discriminate|].
  simpl in Hfirst. inversion Hfirst; subst c.
  assert (Hstrip : Py.strip (ldconfig_row indent (first_ :: name') flags path)
                   = ((first_ :: name') ++ b " (" ++ flags ++ b ")")
                     ++ b " => " ++ path).
  { unfold Py.strip, ldconfig_row.
    change ((first_ :: name') ++ b " (" ++ flags ++ b ") => " ++ path)
      with (first_ :: (name' ++ b " (" ++ flags ++ b ") => " ++ path)).
    rewrite lstrip_indent by assumption.
    rewrite (rstrip_id _ last_); [|rewrite app_comm_cons, !last_app, Hlast|assumption].
    - rewrite <- !app_assoc. reflexivity.
    - reflexivity. }
  rewrite (locateDLL_columns_split h _
             ((first_ :: name') ++ b " (" ++ flags ++ b ")") path).
  - replace ((first_ :: name') ++ b " (" ++ flags ++ b ")")
      with ((first_ :: name') ++ " "%byte :: "("%byte :: (flags ++ b ")"))
      by reflexivity.
    unfold Py.rfind. change (b " (") with [" "%byte; "("%byte].
    rewrite rfind_at_last2.
    + rewrite Z.add_0_l, slice_prefix. reflexivity.
    + rewrite not_elem_of_app. split; [assumption|].
      apply (bool_decide_eq_false_1 _). reflexivity.
  - unfold ldconfig_row.
    replace (indent ++ (first_ :: name') ++ b " (" ++ flags ++ b ") => " ++ path)
      with ((indent ++ (first_ :: name') ++ b " (" ++ flags ++ b ") ")
            ++ "="%byte :: ">"%byte :: (b " " ++ path))
      by (rewrite <- !app_assoc; reflexivity).
    change (b "=>") with ["="%byte; ">"%byte].
    apply count_once.
    + rewrite !not_elem_of_app.
      repeat split; try assumption;
        try (apply (bool_decide_eq_false_1 _); reflexivity).
      now apply space_is_no_equals_sign.
    + rewrite not_elem_of_app. split; [|assumption].
      apply (bool_decide_eq_false_1 _). reflexivity.
  - rewrite Hstrip. change (b " => ") with (" "%byte :: "="%byte :: b "> ").
    apply split_once; [discriminate| |assumption].
    rewrite !not_elem_of_app.
    repeat split; try assumption; apply (bool_decide_eq_false_1 _); reflexivity.
  - apply contains_app.
Qed.

(** X11. Parsing inverts the layout of a row of [ldconfig -p]: on a row
    made of indentation, a name, the flags in parentheses, " => " and a
    path, where none of the three contains "=", the flags contain no "("
    and the row has no whitespace at the start of the name or at the end of
    the path, the loop body reads exactly the name and the path, each turned
    into a native string. A "(" in the name does no harm. *)
Theorem locateDLL_columns_of_row
    (h : Host) (indent name flags path : bytes) (first_ last_ : byte) :
  Forall (fun x => Py.isspace x = true) indent ->
  head name = Some first_ -> Py.isspace first_ = false ->
  last path = Some last_ -> Py.isspace last_ = false ->
  "="%byte ∉ name -> "="%byte ∉ flags -> "="%byte ∉ path ->
  "("%byte ∉ flags ->
  locateDLL_columns h (ldconfig_row indent name flags path)
  = (declared ← native h (getfilesystemencoding h) name;
     resolved ← native h (getfilesystemencoding h) path;
     Ok (declared, resolved)).
Proof. apply locateDLL_columns_row_parsed. Qed.

Lemma locateDLL_columns_of_row_witness :
  locateDLL_columns (DemoElf.linux DemoElf.ldconfig_cache)
    (b "	libstdc++ (old).so.6 (libc6,x86-64) => /usr/lib/x86_64-linux-gnu/libstdc++.so.6")
  = Ok (t "libstdc++ (old).so.6", t "/usr/lib/x86_64-linux-gnu/libstdc++.so.6").
Proof.
  apply (locateDLL_columns_of_row (DemoElf.linux DemoElf.ldconfig_cache)
           (b "	") (b "libstdc++ (old).so.6") (b "libc6,x86-64")
           (b "/usr/lib/x86_64-linux-gnu/libstdc++.so.6") "l"%byte "6"%byte);
    try reflexivity;
    try (apply (bool_decide_eq_false_1 _); vm_compute; reflexivity).
  repeat constructor.
Defined.

(** ** The stderr filter, once more *)

Lemma filter_all_kept {A} (f : A -> bool) (l : list A) :
  Forall (fun x => f x = true) l -> List.filter f l = l.
Proof.
  induction 1 as [|x l Hx _ IH]; simpl; [reflexivity|]. now rewrite Hx, IH.
Qed.

Lemma filter_kept_not_benign stderr :
  Forall (fun l => negb (benign l) = true)
    (List.filter (fun l => negb (benign l)) (Py.splitlines stderr)).
Proof.
  rewrite Forall_forall. intros l Hin. apply list_elem_of_In in Hin.
  now apply List.filter_In in Hin as [_ Hl].
Qed.

(** X12. What the filter returns has no empty line and no line with the
    code-signature warning, and filtering it again changes nothing. *)
Theorem _filterInstallNameToolErrorOutput_idempotent (stderr : bytes) :
  Forall (fun l => benign l = false)
    (Py.splitlines (_filterInstallNameToolErrorOutput stderr))
  /\ _filterInstallNameToolErrorOutput (_filterInstallNameToolErrorOutput stderr)
     = _filterInstallNameToolErrorOutput stderr.
Proof.
  assert (Hlines : Py.splitlines (_filterInstallNameToolErrorOutput stderr)
                   = List.filter (fun l => negb (benign l)) (Py.splitlines stderr)).
  { rewrite _filterInstallNameToolErrorOutput_lines.
    apply splitlines_join, filter_kept_nonempty. }
  split.
  - rewrite Hlines. eapply Forall_impl; [apply filter_kept_not_benign|].
    intros l Hl. now apply negb_true_iff.
  - rewrite (_filterInstallNameToolErrorOutput_lines
               (_filterInstallNameToolErrorOutput stderr)), Hlines.
    rewrite filter_all_kept by apply filter_kept_not_benign.
    symmetry. apply _filterInstallNameToolErrorOutput_lines.
Qed.

(** X13. A stderr made of lines joined by "\n", none of them empty, none
    with the warning, none with a stray line terminator, passes the filter
    unchanged: nothing but the benign lines is ever dropped or altered. *)
Theorem _filterInstallNameToolErrorOutput_keeps (lines : list bytes) :
  Forall (fun l => benign l = false /\ clean l) lines ->
  _filterInstallNameToolErrorOutput (Py.join [Py.LF] lines) = Py.join [Py.LF] lines.
Proof.
  intros Hall. rewrite _filterInstallNameToolErrorOutput_lines.
  rewrite splitlines_join.
  - rewrite filter_all_kept; [reflexivity|].
    eapply Forall_impl; [exact Hall|]. intros l [Hl _]. now rewrite Hl.
  - eapply Forall_impl; [exact Hall|]. intros l [Hl Hclean].
    split; [|assumption]. intros ->. discriminate.
Qed.

Lemma _filterInstallNameToolErrorOutput_keeps_witness :
  let complaint :=
    [ b "install_name_tool: can't open file: missing.dylib";
      b "(No such file or directory)" ] in
  _filterInstallNameToolErrorOutput (Py.join [Py.LF] complaint)
  = Py.join [Py.LF] complaint.
Proof.
  intros complaint.
  apply (_filterInstallNameToolErrorOutput_keeps complaint).
  repeat constructor;
    try (apply (bool_decide_eq_false_1 _); vm_compute; reflexivity).
Defined.

(** ** getSharedLibraryRPATH: lines without the expected punctuation *)

Lemma find_at_absent {A} `{EqDecision A} (s : list A) (x : A) (i : Z) :
  x ∉ s -> Py.find_at s [x] i = -1.
Proof.
  revert i. induction s as [|c s IH]; intros i Hx; [reflexivity|].
  apply not_elem_of_cons in Hx as [Hne Hx].
  cbn [Py.find_at]. rewrite startswith_single.
  rewrite bool_decide_eq_false_2 by assumption. now apply IH.
Qed.

(** [s[lo:-k]] for a start inside the string. *)
Lemma slice_drop_end {A} (s : list A) (lo k : nat) :
  (lo <= length s)%nat -> (0 < k)%nat ->
  Py.slice s (Z.of_nat lo) (- Z.of_nat k) = take (length s - k - lo) (drop lo s).
Proof.
  intros Hlo Hk. unfold Py.slice, Py.clamp.
  rewrite (proj2 (Z.ltb_ge (Z.of_nat lo) 0)) by lia.
  rewrite (proj2 (Z.ltb_lt (- Z.of_nat k) 0)) by lia.
  rewrite Z.min_l by lia. rewrite Nat2Z.id. f_equal. lia.
Qed.

(** X14. The ELF lookup does not check that the tagged line has brackets:
    on a first tagged line with neither "[" nor "]" the slice bounds come
    from two failed searches, and the answer is the whole line without its
    last byte. *)
Theorem getSharedLibraryRPATH_elf_without_brackets
    (h : Host) (filename : text) (w : World)
    (process : Completed) (files' : gmap text File)
    (before : list bytes) (line : bytes) (after : list bytes) :
  getOS h <> t "Darwin" ->
  runs_clean h [t "readelf"; t "-d"; filename] w process files' ->
  Py.split (stdout process) [Py.LF] = before ++ line :: after ->
  Forall (fun l => tagged l = false) before ->
  tagged line = true ->
  "["%byte ∉ line -> "]"%byte ∉ line ->
  getSharedLibraryRPATH h filename w
  = (match decode_result h (take (length line - 1) line) with
     | Ok rpath => Ok (Some rpath)
     | Raise e => Raise e
     end,
     after_tool [t "readelf"; t "-d"; filename] w files').
Proof.
  intros Hos Hrun Hlines Hbefore Htagged Hopen Hclose.
  rewrite (getSharedLibraryRPATH_elf_unfold _ _ _ _ _ Hos Hrun), Hlines.
  f_equal. rewrite _getSharedLibraryRPATHElf_loop_skip by assumption.
  cbn [_getSharedLibraryRPATHElf_loop].
  unfold tagged in Htagged. rewrite Htagged.
  unfold Py.find, Py.rfind. change (b "[") with ["["%byte].
  change (b "]") with ["]"%byte].
  rewrite find_at_absent, rfind_at_absent by assumption.
  change (-1 + 1) with (Z.of_nat 0). change (-1) with (- Z.of_nat 1).
  rewrite slice_drop_end by lia.
  now rewrite Nat.sub_0_r.
Qed.

Lemma getSharedLibraryRPATH_elf_without_brackets_witness :
  getSharedLibraryRPATH DemoMore.linux_bare_tag (t "bare.so") Demo.empty_world
  = (Ok (Some (t " 0x1d (RUNPATH) /opt/li")),
     after_tool [t "readelf"; t "-d"; t "bare.so"] Demo.empty_world ∅).
Proof.
  apply (getSharedLibraryRPATH_elf_without_brackets DemoMore.linux_bare_tag
           (t "bare.so") Demo.empty_world
           (Demo.quiet (Demo.report ["Dynamic section:"; " 0x1d (RUNPATH) /opt/lib"]%string))
           ∅ [b "Dynamic section:"] (b " 0x1d (RUNPATH) /opt/lib") []).
  - vm_compute. discriminate.
  - repeat split.
  - vm_compute. reflexivity.
  - repeat constructor.
  - vm_compute. reflexivity.
  - apply (bool_decide_eq_false_1 _). vm_compute. reflexivity.
  - apply (bool_decide_eq_false_1 _). vm_compute. reflexivity.
Defined.

(** ** getSharedLibraryRPATH: what it can raise *)

Lemma decode_result_raises h s e :
  decode_result h s = Raise e -> e = UnicodeDecodeError /\ py3 h = true.
Proof.
  unfold decode_result, decode. destruct (py3 h); [|discriminate].
  destruct (codec_decode h _ s); [discriminate|]. intros E. now inversion E.
Qed.

Lemma _getSharedLibraryRPATHElf_loop_raises h lines e :
  _getSharedLibraryRPATHElf_loop h lines = Raise e ->
  e = UnicodeDecodeError /\ py3 h = true.
Proof.
  induction lines as [|line lines IH]; simpl; [discriminate|].
  destruct (_ || _); [|exact IH].
  destruct (decode_result h _) as [r|e'] eqn:Hd; [discriminate|].
  intros E. inversion E; subst. exact (decode_result_raises _ _ _ Hd).
Qed.

Lemma _getSharedLibraryRPATHDarwin_loop_raises h lines :
  forall cmd flag e,
    _getSharedLibraryRPATHDarwin_loop h cmd flag lines = Raise e ->
    e = UnicodeDecodeError /\ py3 h = true.
Proof.
  induction lines as [|line lines IH]; intros cmd flag e; [discriminate|].
  cbn [_getSharedLibraryRPATHDarwin_loop].
  destruct (bool_decide (cmd = b "LC_RPATH") && _).
  - destruct (decode_result h _) as [r|e'] eqn:Hd; [discriminate|].
    intros E. inversion E; subst. exact (decode_result_raises _ _ _ Hd).
  - destruct (flag && Py.startswith (Py.strip line) (b "cmd ")) eqn:Hcmd.
    + apply andb_true_iff in Hcmd as [_ Hstart].
      destruct (cmd_word_exists line Hstart) as [c ->]. apply IH.
    + apply IH.
Qed.

(** X15. Once [readelf] or [otool] has run cleanly, the only exception the
    lookup can raise is [UnicodeDecodeError], and only on Python 3, where
    the value is decoded: in particular [line.split()[1]] never fails with
    an [IndexError], and on Python 2 the lookup always returns. *)
Theorem getSharedLibraryRPATH_raises_only_UnicodeDecodeError
    (h : Host) (filename : text) (w w' : World)
    (process : Completed) (files' : gmap text File) (e : Exception) :
  runs_clean h (rpath_query h filename) w process files' ->
  getSharedLibraryRPATH h filename w = (Raise e, w') ->
  e = UnicodeDecodeError /\ 0x300 <= python_version h.
Proof.
  unfold rpath_query. intros Hrun Hraise.
  assert (He : e = UnicodeDecodeError /\ py3 h = true).
  { destruct (decide (getOS h = t "Darwin")) as [Hos|Hos].
    - rewrite (bool_decide_eq_true_2 _ Hos) in Hrun.
      rewrite (getSharedLibraryRPATH_darwin_unfold _ _ _ _ _ Hos Hrun) in Hraise.
      inversion Hraise as [[Hloop Hw]].
      exact (_getSharedLibraryRPATHDarwin_loop_raises _ _ _ _ _ Hloop).
    - rewrite (bool_decide_eq_false_2 _ Hos) in Hrun.
      rewrite (getSharedLibraryRPATH_elf_unfold _ _ _ _ _ Hos Hrun) in Hraise.
      inversion Hraise as [[Hloop Hw]].
      exact (_getSharedLibraryRPATHElf_loop_raises _ _ _ Hloop). }
  destruct He as [-> Hpy]. split; [reflexivity|].
  unfold py3 in Hpy. now apply bool_decide_eq_true_1 in Hpy.
Qed.

Lemma getSharedLibraryRPATH_raises_only_UnicodeDecodeError_witness :
  UnicodeDecodeError = UnicodeDecodeError /\ 0x300 <= 0x390.
Proof.
  apply (getSharedLibraryRPATH_raises_only_UnicodeDecodeError
           DemoMore.linux_latin1 (t "odd.so") Demo.empty_world
           (after_tool [t "readelf"; t "-d"; t "odd.so"] Demo.empty_world ∅)
           (Demo.quiet (b " 0x1d (RUNPATH) Library runpath: [/opt/" ++ ["233"%byte]
                        ++ b "]"))
           ∅ UnicodeDecodeError).
  - repeat split.
  - vm_compute. reflexivity.
Defined.

(** X16. The Mach-O lookup does not check that the "path " line carries its
    " (offset ...)" annotation: on such a line without any "(" the slice
    ends two bytes before the end, so the answer is the path without its
    last two bytes. *)
Theorem getSharedLibraryRPATH_darwin_without_annotation
    (h : Host) (filename : text) (w : World)
    (process : Completed) (files' : gmap text File)
    (before : list bytes) (header command : bytes) (between : list bytes)
    (path_line : bytes) (after : list bytes) (value : bytes) :
  getOS h = t "Darwin" ->
  runs_clean h [t "otool"; t "-l"; filename] w process files' ->
  Py.split (stdout process) [Py.LF]
  = before ++ header :: command :: between ++ path_line :: after ->
  no_rpath_command (before ++ [header]) ->
  Py.startswith (Py.strip header) (b "Load command") = true ->
  Py.startswith (Py.strip command) (b "cmd ") = true ->
  Py.split_ws (Py.strip command) !! 1%nat = Some (b "LC_RPATH") ->
  Forall (fun l => Py.startswith (Py.strip l) (b "path ") = false
                   /\ Py.startswith (Py.strip l) (b "Load command") = false)
    between ->
  Py.strip path_line = b "path " ++ value ->
  "("%byte ∉ value ->
  getSharedLibraryRPATH h filename w
  = (match decode_result h (take (length value - 2) value) with
     | Ok rpath => Ok (Some rpath)
     | Raise e => Raise e
     end,
     after_tool [t "otool"; t "-l"; filename] w files').
Proof.
  intros Hos Hrun Hlines Hno Hheader Hcommand Hword Hbetween Hpath Hparen.
  rewrite (getSharedLibraryRPATH_darwin_unfold _ _ _ _ _ Hos Hrun).
  assert (Hinit : [] <> b "LC_RPATH") by discriminate.
  f_equal. rewrite Hlines.
  replace (before ++ header :: command :: between ++ path_line :: after)
    with ((before ++ [header]) ++ command :: between ++ path_line :: after)
    by (now rewrite <- app_assoc).
  destruct (_getSharedLibraryRPATHDarwin_loop_prefix h (before ++ [header])
              [] false (command :: between ++ path_line :: after) Hinit)
    as (cmd' & Hcmd' & Hscan); [discriminate|assumption|].
  refine (eq_trans Hscan _). clear Hscan.
  rewrite last_snoc, Hheader.
  cbn [_getSharedLibraryRPATHDarwin_loop].
  rewrite (bool_decide_eq_false_2 _ Hcmd'). cbn [andb].
  rewrite Hcommand, Hword. cbn [mbind Result_bind].
  rewrite (cmd_line_is_no_header _ Hcommand).
  rewrite _getSharedLibraryRPATHDarwin_loop_between by assumption.
  cbn [_getSharedLibraryRPATHDarwin_loop].
  rewrite Hpath, startswith_app.
  rewrite bool_decide_eq_true_2 by reflexivity. cbn [andb].
  unfold Py.rfind. change (b "(") with ["("%byte].
  rewrite rfind_at_absent
    by (rewrite not_elem_of_app; split;
        [apply (bool_decide_eq_false_1 _); reflexivity|assumption]).
  change 5 with (Z.of_nat 5). change (-1 - 1) with (- Z.of_nat 2).
  rewrite slice_drop_end by (rewrite ?length_app; simpl; lia).
  rewrite drop_app_length'  by reflexivity.
  rewrite length_app. simpl length.
  replace (5 + length value - 2 - 5)%nat with (length value - 2)%nat by lia.
  reflexivity.
Qed.

Lemma getSharedLibraryRPATH_darwin_without_annotation_witness :
  getSharedLibraryRPATH DemoMore.macos_bare_path (t "odd.dylib") Demo.empty_world
  = (Ok (Some (t "/opt/l")),
     after_tool [t "otool"; t "-l"; t "odd.dylib"] Demo.empty_world ∅).
Proof.
  apply (getSharedLibraryRPATH_darwin_without_annotation DemoMore.macos_bare_path
           (t "odd.dylib") Demo.empty_world
           (Demo.quiet DemoMore.bare_path_report) ∅
           [b "odd.dylib:"] (b "Load command 0") (b "      cmd LC_RPATH")
           [b "  cmdsize 32"] (b "     path /opt/lib") [] (b "/opt/lib")).
  - reflexivity.
  - repeat split.
  - vm_compute. reflexivity.
  - apply no_rpath_commandb_sound. vm_compute. reflexivity.
  - vm_compute. reflexivity.
  - vm_compute. reflexivity.
  - vm_compute. reflexivity.
  - repeat constructor.
  - vm_compute. reflexivity.
  - apply (bool_decide_eq_false_1 _). vm_compute. reflexivity.
Defined.

(** ** getPyWin32Dir *)

Lemma getPyWin32Dir_skip h isdir before rest :
  Forall (fun p => p = [] \/ isdir (os_path_join h p (t "pywin32_system32")) = false)
    before ->
  getPyWin32Dir h isdir (before ++ rest) = getPyWin32Dir h isdir rest.
Proof.
  induction 1 as [|p before Hp _ IH]; [reflexivity|].
  cbn [app getPyWin32Dir]. case_bool_decide as Hempty; [exact IH|].
  destruct Hp as [Hp|Hp]; [contradiction|]. now rewrite Hp.
Qed.

(** X17. [getPyWin32Dir] answers with the [pywin32_system32] directory under
    the first non-empty element of [sys.path] that has one; empty elements
    are passed over without asking the disk, and the answer is [None]
    exactly when no non-empty element has such a directory. *)
Theorem getPyWin32Dir_first_candidate
    (h : Host) (isdir : text -> bool) (sys_path : list text) :
  (getPyWin32Dir h isdir sys_path = None
   <-> Forall (fun p => p = []
                        \/ isdir (os_path_join h p (t "pywin32_system32")) = false)
         sys_path)
  /\ (forall before path_element after,
        sys_path = before ++ path_element :: after ->
        Forall (fun p => p = []
                         \/ isdir (os_path_join h p (t "pywin32_system32")) = false)
          before ->
        path_element <> [] ->
        isdir (os_path_join h path_element (t "pywin32_system32")) = true ->
        getPyWin32Dir h isdir sys_path
        = Some (os_path_join h path_element (t "pywin32_system32"))).
Proof.
  split; [split|].
  - induction sys_path as [|p sys_path IH]; [constructor|].
    cbn [getPyWin32Dir]. case_bool_decide as Hempty.
    + intros Hrest. constructor; [now left|now apply IH].
    + destruct (isdir _) eqn:Hdir; [discriminate|].
      intros Hrest. constructor; [now right|now apply IH].
  - intros Hall. rewrite <- (app_nil_r sys_path).
    now rewrite getPyWin32Dir_skip.
  - intros before path_element after -> Hbefore Hne Hdir.
    rewrite getPyWin32Dir_skip by assumption.
    cbn [getPyWin32Dir]. rewrite (bool_decide_eq_false_2 _ Hne). now rewrite Hdir.
Qed.

Lemma getPyWin32Dir_first_candidate_witness :
  getPyWin32Dir (Demo.windows 0 None)
    (fun p => bool_decide (p = t "C:\Python39\lib\site-packages/pywin32_system32"))
    [ []; t "C:\Python39"; t "C:\Python39\lib\site-packages"; t "C:\other" ]
  = Some (t "C:\Python39\lib\site-packages/pywin32_system32").
Proof.
  apply (proj2 (getPyWin32Dir_first_candidate (Demo.windows 0 None) _ _)
           [ []; t "C:\Python39" ] (t "C:\Python39\lib\site-packages") [t "C:\other"]).
  - reflexivity.
  - constructor; [now left|]. constructor; [|constructor]. right. reflexivity.
  - discriminate.
  - reflexivity.
Defined.

(** ** removeSxsFromDLL when the resources cannot be read *)

(** X18. When the enumeration of the manifest resources of an allow-listed
    module fails, [removeSxsFromDLL] fails with the same exception, after the
    read and before any deletion: no file is changed. *)
Theorem removeSxsFromDLL_enumeration_fails
    (h : Host) (filename : text) (w : World) (e : Exception) :
  os_path_normcase h (os_path_basename h filename) ∈ sxs_modules ->
  getResourcesFromDLL h filename [RT_MANIFEST h] false (files w) = Raise e ->
  removeSxsFromDLL h filename w
  = (Raise e, {| files := files w;
                 journal := journal w ++ [ResourcesRead filename [RT_MANIFEST h]] |}).
Proof.
  intros Hin Hres. unfold removeSxsFromDLL, sxs_modules in *.
  rewrite (bool_decide_eq_true_2 _ Hin). cbn [negb].
  unfold mbind, M_bind, bind, getSxsFromDLL. now rewrite Hres.
Qed.

Lemma removeSxsFromDLL_enumeration_fails_witness :
  removeSxsFromDLL DemoMore.windows_unreadable (t "C:\py\sip.pyd") Demo.empty_world
  = (Raise CollaboratorError,
     {| files := ∅; journal := [ResourcesRead (t "C:\py\sip.pyd") [24]] |}).
Proof.
  apply (removeSxsFromDLL_enumeration_fails DemoMore.windows_unreadable
           (t "C:\py\sip.pyd") Demo.empty_world CollaboratorError).
  - apply (bool_decide_eq_true_1 _). vm_compute. reflexivity.
  - reflexivity.
Defined.

(** ** removeSharedLibraryRPATH on a binary with an RPATH *)

Lemma executeToolChecked_journal h logger command message stderr_filter w r w' :
  executeToolChecked h logger command message stderr_filter w = (r, w') ->
  (r = Raise (ToolMissing message) /\ w' = w)
  \/ (journal w' = journal w ++ [ToolRun command] /\ r <> Raise (ToolMissing message)).
Proof.
  unfold executeToolChecked.
  destruct (spawn h command (files w)) as [[process fs']|].
  - repeat case_bool_decide; intros E; inversion E; subst; right;
      (split; [reflexivity|discriminate]).
  - intros E. inversion E. now left.
Qed.

Lemma withMadeWritableFileMode_journal {A} filename (body : M A) w r w' :
  withMadeWritableFileMode filename body w = (r, w') ->
  exists w0 w1,
    journal w0 = journal w /\ body w0 = (r, w1) /\ journal w' = journal w1
    /\ (w1 = w0 -> files w' = files w).
Proof.
  unfold withMadeWritableFileMode.
  destruct (files w !! filename) as [f|] eqn:Hf.
  - destruct (body (chmod filename (Z.lor (mode f) S_IWRITE) w)) as [r1 w1] eqn:Hbody.
    intros E. inversion E; subst.
    exists (chmod filename (Z.lor (mode f) S_IWRITE) w), w1.
    split; [reflexivity|]. split; [assumption|]. split; [reflexivity|].
    intros ->. unfold chmod. simpl.
    apply map_eq. intros k. rewrite !lookup_alter.
    case_decide; [subst k|reflexivity].
    rewrite decide_True by reflexivity. rewrite Hf. simpl. now destruct f.
  - intros E. exists w, w'.
    split; [reflexivity|]. split; [assumption|]. split; [reflexivity|].
    now intros ->.
Qed.

(** X19. When the lookup finds an RPATH, [removeSharedLibraryRPATH] goes on
    to exactly one patching command and no other tool: [chrpath -d] on the
    file on ELF hosts, [install_name_tool -delete_rpath] with the very value
    the lookup returned on macOS, announced on the inclusion logger when
    inclusion reporting is on. A successful call has run that command. *)
Theorem removeSharedLibraryRPATH_patches
    (h : Host) (filename rpath : text) (w w1 wf : World) (r : Result unit) :
  getSharedLibraryRPATH h filename w = (Ok (Some rpath), w1) ->
  removeSharedLibraryRPATH h filename w = (r, wf) ->
  let info :=
    if isShowInclusion h
    then [LogInfo inclusion_logger
            (t "Removing 'RPATH' setting '" ++ rpath ++ t "' from '"
             ++ filename ++ t "'.")]
    else [] in
  (journal wf = journal w1 ++ info
   \/ journal wf = journal w1 ++ info ++ [ToolRun (rpath_removal h filename rpath)])
  /\ (r = Ok tt ->
      journal wf = journal w1 ++ info ++ [ToolRun (rpath_removal h filename rpath)]).
Proof.
  intros Hget Hremove info. revert Hremove. unfold removeSharedLibraryRPATH.
  rewrite (bind_ok _ _ _ _ _ Hget).
  set (w2 := {| files := files w1; journal := journal w1 ++ info |}).
  assert (Hlog : forall k : unit -> M unit,
            ((if isShowInclusion h
              then emit (LogInfo inclusion_logger
                           (t "Removing 'RPATH' setting '" ++ rpath ++ t "' from '"
                            ++ filename ++ t "'."))
              else mret tt) ≫= k) w1 = k tt w2).
  { intros k. subst w2 info. unfold mbind, M_bind, bind.
    destruct (isShowInclusion h); simpl; [reflexivity|].
    rewrite app_nil_r. now destruct w1. }
  rewrite Hlog. intros Hwith.
  destruct (withMadeWritableFileMode_journal _ _ _ _ _ Hwith)
    as (w0 & w3 & Hw0 & Hbody & -> & _).
  assert (Hstep : (r = Raise (ToolMissing (if bool_decide (getOS h = t "Darwin")
                                           then _installnametool_usage
                                           else _chrpath_usage))
                   /\ w3 = w0)
                  \/ (journal w3 = journal w0 ++ [ToolRun (rpath_removal h filename rpath)])).
  { unfold rpath_removal. revert Hbody.
    unfold _removeSharedLibraryRPATHDarwin, _removeSharedLibraryRPATHElf.
    unfold mbind, M_bind, bind.
    case_bool_decide;
      match goal with
      | |- context [executeToolChecked ?h ?l ?c ?m ?f ?w] =>
          destruct (executeToolChecked h l c m f w) as [[out|e] w4] eqn:Htool
      end;
      intros E; inversion E; subst;
      destruct (executeToolChecked_journal _ _ _ _ _ _ _ _ Htool)
        as [[Hr ->]|[Hj _]]; try discriminate;
      try (right; exact Hj);
      left; (split; [now inversion Hr|reflexivity]). }
  rewrite Hw0 in Hstep. subst w2. simpl in *.
  destruct Hstep as [[-> ->]|Hj].
  - split; [left; rewrite Hw0; reflexivity|discriminate].
  - rewrite <- app_assoc in Hj.
    split; [now right|now intros _].
Qed.

Lemma removeSharedLibraryRPATH_patches_witness :
  let h := DemoMachO.macos in
  let w1 := after_tool [t "otool"; t "-l"; t "app.dylib"] Demo.empty_world ∅ in
  (removeSharedLibraryRPATH h (t "app.dylib") Demo.empty_world).1 = Ok tt
  /\ journal (removeSharedLibraryRPATH h (t "app.dylib") Demo.empty_world).2
     = [ ToolRun [t "otool"; t "-l"; t "app.dylib"];
         ToolRun [t "install_name_tool"; t "-delete_rpath";
                  t "@loader_path/../lib"; t "app.dylib"] ].
Proof.
  intros h w1.
  assert (Hrun : (removeSharedLibraryRPATH h (t "app.dylib") Demo.empty_world).1 = Ok tt)
    by (vm_compute; reflexivity).
  split; [exact Hrun|].
  apply (proj2 (removeSharedLibraryRPATH_patches h (t "app.dylib")
                  (t "@loader_path/../lib") Demo.empty_world w1
                  (removeSharedLibraryRPATH h (t "app.dylib") Demo.empty_world).2
                  (removeSharedLibraryRPATH h (t "app.dylib") Demo.empty_world).1
                  ltac:(vm_compute; reflexivity)
                  ltac:(now destruct (removeSharedLibraryRPATH h (t "app.dylib")
                                        Demo.empty_world)))).
  exact Hrun.
Defined.

(** ** callInstallNameTool *)

Lemma change_arguments_lookup (mapping : list (text * text)) (i : nat) old_path new_path :
  mapping !! i = Some (old_path, new_path) ->
  let arguments :=
    concat (map (fun '(o, n) => [t "-change"; o; n]) mapping) in
  arguments !! (3 * i)%nat = Some (t "-change")
  /\ arguments !! (3 * i + 1)%nat = Some old_path
  /\ arguments !! (3 * i + 2)%nat = Some new_path.
Proof.
  revert i. induction mapping as [|[o n] mapping IH]; intros i; [discriminate|].
  destruct i as [|i].
  - intros E. inversion E; subst. now repeat split.
  - intros Hi. specialize (IH i Hi). cbv zeta in *.
    replace (3 * S i)%nat with (3 + 3 * i)%nat by lia.
    exact IH.
Qed.

Lemma change_arguments_length (mapping : list (text * text)) :
  length (concat (map (fun '(o, n) => [t "-change"; o; n]) mapping))
  = (3 * length mapping)%nat.
Proof.
  induction mapping as [|[o n] mapping IH]; [reflexivity|].
  cbn [map concat]. rewrite length_app, IH. simpl. lia.
Qed.

Lemma callInstallNameTool_command h filename mapping rpath :
  callInstallNameTool h filename mapping rpath
  = withMadeWritableFileMode filename
      (executeToolChecked h postprocessing_logger
         (install_name_tool_command h filename mapping rpath)
         _installnametool_usage (Some _filterInstallNameToolErrorOutput);;
       mret tt).
Proof.
  unfold callInstallNameTool, install_name_tool_command.
  destruct rpath; now rewrite <- ?app_assoc, ?app_nil_l.
Qed.

(** X20. [callInstallNameTool] issues all its changes in one command: at
    most one tool is run, and a successful call has run it. The command is
    [install_name_tool], then "-change old new" for every pair of the
    mapping in order, then "-add_rpath" with the joined directory exactly
    when an rpath is given, and the file name last. *)
Theorem callInstallNameTool_single_command
    (h : Host) (filename : text) (mapping : list (text * text))
    (rpath : option text) (w wf : World) (r : Result unit) :
  callInstallNameTool h filename mapping rpath w = (r, wf) ->
  let command := install_name_tool_command h filename mapping rpath in
  (journal wf = journal w \/ journal wf = journal w ++ [ToolRun command])
  /\ (r = Ok tt -> journal wf = journal w ++ [ToolRun command])
  /\ head command = Some (t "install_name_tool")
  /\ last command = Some filename
  /\ length command
     = (2 + 3 * length mapping + match rpath with Some _ => 2 | None => 0 end)%nat
  /\ (forall i old_path new_path,
        mapping !! i = Some (old_path, new_path) ->
        command !! (1 + 3 * i)%nat = Some (t "-change")
        /\ command !! (2 + 3 * i)%nat = Some old_path
        /\ command !! (3 + 3 * i)%nat = Some new_path)
  /\ (forall dir,
        rpath = Some dir ->
        command !! (1 + 3 * length mapping)%nat = Some (t "-add_rpath")
        /\ command !! (2 + 3 * length mapping)%nat = Some (os_path_join h dir (t "."))).
Proof.
  rewrite callInstallNameTool_command. intros Hcall command.
  destruct (withMadeWritableFileMode_journal _ _ _ _ _ Hcall)
    as (w0 & w1 & Hw0 & Hbody & -> & _).
  assert (Hstep : (r <> Ok tt /\ w1 = w0)
                  \/ journal w1 = journal w0 ++ [ToolRun command]).
  { revert Hbody. unfold mbind, M_bind, bind.
    destruct (executeToolChecked _ _ _ _ _ w0) as [[out|e] w2] eqn:Htool;
      intros E; inversion E; subst;
      destruct (executeToolChecked_journal _ _ _ _ _ _ _ _ Htool)
        as [[Hr ->]|[Hj _]]; try discriminate;
      try (right; exact Hj).
    left. split; [discriminate|reflexivity]. }
  rewrite Hw0 in Hstep.
  split; [|split; [|split; [|split; [|split; [|split]]]]].
  - destruct Hstep as [[_ ->]|Hj]; [left; exact Hw0|now right].
  - intros ->. destruct Hstep as [[Hne _]|Hj]; [now contradict Hne|exact Hj].
  - reflexivity.
  - subst command. unfold install_name_tool_command.
    rewrite !app_assoc. apply last_snoc.
  - subst command. unfold install_name_tool_command.
    rewrite !length_app, change_arguments_length.
    destruct rpath; simpl; lia.
  - intros i old_path new_path Hi.
    destruct (change_arguments_lookup mapping i old_path new_path Hi)
      as (H1 & H2 & H3).
    subst command. unfold install_name_tool_command.
    change ([t "install_name_tool"] ++ ?l) with (t "install_name_tool" :: l).
    cbn [Nat.add]. rewrite !lookup_cons.
    rewrite !lookup_app_l
      by (rewrite change_arguments_length; apply lookup_lt_Some in Hi; lia).
    replace (S (S (3 * i))) with (3 * i + 2)%nat by lia.
    replace (S (3 * i)) with (3 * i + 1)%nat by lia.
    now repeat split.
  - intros dir ->. subst command. unfold install_name_tool_command.
    change ([t "install_name_tool"] ++ ?l) with (t "install_name_tool" :: l).
    cbn [Nat.add]. rewrite !lookup_cons.
    split.
    + apply list_lookup_middle. symmetry. apply change_arguments_length.
    + rewrite lookup_app_r; rewrite change_arguments_length; [|lia].
      now replace (S (3 * length mapping) - 3 * length mapping)%nat with 1%nat by lia.
Qed.

Lemma callInstallNameTool_single_command_witness :
  let call := callInstallNameTool DemoMore.macos_patch (t "app.dylib")
                [ (t "/usr/lib/libz.1.dylib", t "@rpath/libz.1.dylib");
                  (t "/usr/lib/libssl.dylib", t "@rpath/libssl.dylib") ]
                (Some (t "@executable_path")) Demo.empty_world in
  call.1 = Ok tt
  /\ journal call.2
     = [ ToolRun [t "install_name_tool";
                  t "-change"; t "/usr/lib/libz.1.dylib"; t "@rpath/libz.1.dylib";
                  t "-change"; t "/usr/lib/libssl.dylib"; t "@rpath/libssl.dylib";
                  t "-add_rpath"; t "@executable_path/.";
                  t "app.dylib"] ].
Proof.
  intros call.
  assert (Hrun : call.1 = Ok tt) by (vm_compute; reflexivity).
  split; [exact Hrun|].
  apply (proj1 (proj2 (callInstallNameTool_single_command DemoMore.macos_patch
                         (t "app.dylib")
                         [ (t "/usr/lib/libz.1.dylib", t "@rpath/libz.1.dylib");
                           (t "/usr/lib/libssl.dylib", t "@rpath/libssl.dylib") ]
                         (Some (t "@executable_path")) Demo.empty_world
                         call.2 call.1 (surjective_pairing _)))).
  exact Hrun.
Defined.

(** ** locateDLL on a whole listing *)







